(** * GPS tracker (script.js): track recording, statistics and persistence

  A shallow embedding of [script.js] and the properties of its
  track-recording engine.

  Modelling conventions.
  - JavaScript Numbers that carry measurements (latitude, longitude, speed,
    accuracy, distances) live in an abstract type [num] with the operations
    of the [Runtime] class; the functions of the script are written once,
    over any such runtime.  The instance [R_Runtime] interprets [num] as the
    real numbers: it is the ideal arithmetic that the script's formulas
    denote, without rounding, NaN or signed zeros.
  - Integral Numbers (epoch milliseconds, array lengths, seconds) are [Z] and
    [nat]; [Math.floor (x / k)] is [Z.div], [x % k] is [Z.rem] and
    [Math.round (x / 1000)] is [(x + 500) / 1000].
  - The module variables of the script, the page it writes to and the
    browser services it calls are the three parts of a [World], threaded
    through a state-and-exception monad [M]; a thrown exception keeps the
    state reached so far, as in JavaScript.
  - [localStorage] is a finite map from keys to payloads.  A payload is
    described by what [JSON.parse] makes of its text. *)

From Stdlib Require Import Reals Lra ZArith Lia Sorted.
From stdpp Require Import base option list strings pretty gmap.

(** ** The JavaScript runtime *)

(** Number arithmetic, the [Math] functions used by the script, and the
  number and date formatting methods. *)
Class Runtime (num : Type) := {
  of_Z : Z → num;                        (* integer literals *)
  nadd : num → num → num;
  nsub : num → num → num;
  nmul : num → num → num;
  ndiv : num → num → num;
  Math_PI : num;
  Math_sin : num → num;
  Math_cos : num → num;
  Math_sqrt : num → num;
  Math_atan2 : num → num → num;
  truthy : num → bool;                   (* ToBoolean: false on 0 and NaN *)
  toFixed : num → nat → string;          (* Number.prototype.toFixed *)
  toLocaleString : Z → string;           (* Date.prototype.toLocaleString *)
  toLocaleTimeString : Z → string        (* Date.prototype.toLocaleTimeString *)
}.

Declare Scope num_scope.
Delimit Scope num_scope with num.
Notation "x + y" := (nadd x y) : num_scope.
Notation "x - y" := (nsub x y) : num_scope.
Notation "x * y" := (nmul x y) : num_scope.
Notation "x / y" := (ndiv x y) : num_scope.
Notation "# z" := (of_Z z%Z) (at level 9, z at level 9, format "# z") : num_scope.

(** Completion of a call: it returns or throws. *)
Inductive exn := SyntaxError | TypeError | QuotaExceededError.

Inductive completion (A : Type) :=
| Normal (a : A)
| Throw (e : exn).
Arguments Normal {A} a.
Arguments Throw {A} e.

(** ** Data *)

Section Data.
Context {num : Type}.

(** An element of [positions]: the array [[latitude, longitude]].  The
    script also reads a [timestamp] property from it (undefined when the
    array has no such property). *)
Record Point := {
  lat : num;
  lon : num;
  timestamp : option Z
}.

(** [position.coords] as delivered by the location source; [stamp] is the
    [timestamp] property that the wrapper of [watchPosition] adds. *)
Record Coords := {
  latitude : num;
  longitude : num;
  speed : option num;
  accuracy : num;
  stamp : option Z
}.

Record Position := {
  coords : Coords;
  captured : Z                         (* position.timestamp *)
}.

(** JSON values.  Integral numbers are kept apart from measurements. *)
#[warnings="-register-all"]
Inductive json :=
  | JNull
  | JBool (b : bool)
  | JInt (z : Z)
  | JNum (x : num)
  | JStr (s : string)
  | JArr (items : list json)
  | JObj (fields : list (string * json)).

(** The text of a storage item, by what [JSON.parse] makes of it:
    [Malformed s] is a text [s] that is not JSON ([JSON.parse] throws a
    SyntaxError on it, the empty string included); [Document v] is a JSON
    text of the value [v], such as [JSON.stringify v]. *)
Inductive payload :=
  | Malformed (text : string)
  | Document (v : json).

End Data.
Arguments Point : clear implicits.
Arguments Coords : clear implicits.
Arguments Position : clear implicits.
Arguments json : clear implicits.
Arguments payload : clear implicits.

(** ** Distance calculator *)

Section Distance.
Context {num : Type} `{Runtime num}.
Local Open Scope num_scope.

(** script.js, [haversineDistance]. *)
Definition haversineDistance (lat1 lon1 lat2 lon2 : num) : num :=
  let R := #6371 in
  let dLat := (lat2 - lat1) * Math_PI / #180 in
  let dLon := (lon2 - lon1) * Math_PI / #180 in
  let a :=
    Math_sin (dLat / #2) * Math_sin (dLat / #2) +
    Math_cos (lat1 * Math_PI / #180) * Math_cos (lat2 * Math_PI / #180) *
    Math_sin (dLon / #2) * Math_sin (dLon / #2) in
  let c := #2 * Math_atan2 (Math_sqrt a) (Math_sqrt (#1 - a)) in
  R * c.

(** One turn of the loop of [calculateDistance]: destructure
    [points[i-1]] and [points[i]] and add their distance to [total].
    Destructuring an element that is not there throws a TypeError. *)
Definition calculateDistance_step (points : list (Point num))
    (total : completion num) (i : nat) : completion num :=
  match total with
  | Throw e => Throw e
  | Normal t =>
      match points !! (i - 1)%nat, points !! i with
      | Some p1, Some p2 =>
          Normal (t + haversineDistance (lat p1) (lon p1) (lat p2) (lon p2))
      | _, _ => Throw TypeError
      end
  end.

(** script.js, [calculateDistance]: [total] starts at 0 and the loop runs
    for [i = 1, ..., points.length - 1]. *)
Definition calculateDistance (points : list (Point num)) : completion num :=
  foldl (calculateDistance_step points) (Normal #0)
        (seq 1 (length points - 1)).

(** The specification's words: [haversineDistanceKm] of two coordinates and
    [pathDistanceKm], the sum over the consecutive pairs of the sequence,
    accumulated from 0 in sequence order. *)
Definition haversineDistanceKm (a b : Point num) : num :=
  haversineDistance (lat a) (lon a) (lat b) (lon b).

Definition consecutive_pairs (points : list (Point num))
    : list (Point num * Point num) :=
  zip points (tail points).

Definition pathDistanceKm (points : list (Point num)) : num :=
  foldl (λ total pq, total + haversineDistanceKm pq.1 pq.2) #0
        (consecutive_pairs points).

End Distance.

(** ** The world of the script *)

Section World.
Context {num : Type}.

(** The module variables of script.js.  [marker] and [polyline] hold what
    the Leaflet layers were built from; the map widget itself (its view and
    which layers it shows) is output only and is not modelled. *)
Record Script := {
  watchId : option Z;
  positions : list (Point num);
  startTime : option Z;
  lastPositionTime : option Z;
  marker : option (num * num);
  polyline : option (list (Point num))
}.

(** The elements of the page that the script writes, and the notifications
    appended to the body (their removal after three seconds is not
    modelled). *)
Record Page := {
  startBtn_disabled : bool;
  stopBtn_disabled : bool;
  latitudeEl : string;
  longitudeEl : string;
  speedEl : string;
  accuracyEl : string;
  distanceEl : string;
  durationEl : string;
  pointCountEl : string;
  notifications : list string
}.

(** The browser: geolocation service, storage, dialogs and the clock.
    [now k] is what the [k]-th reading of the clock returns and [ticks]
    counts the readings made so far. *)
Record Browser := {
  geolocation : bool;
  watches : list Z;
  nextWatch : Z;
  localStorage : gmap string (payload num);
  storageFull : bool;
  alerts : list string;
  console : list string;
  now : nat → Z;
  ticks : nat
}.

Record World := {
  script : Script;
  page : Page;
  browser : Browser
}.

(** State and exceptions: the state reached is kept when a call throws. *)
Definition M (A : Type) : Type := World → completion A * World.

Definition ret {A} (a : A) : M A := λ w, (Normal a, w).

Definition bind {A B} (m : M A) (k : A → M B) : M B :=
  λ w, match m w with
       | (Normal a, w') => k a w'
       | (Throw e, w') => (Throw e, w')
       end.

Definition throw {A} (e : exn) : M A := λ w, (Throw e, w).

Definition lift {A} (c : completion A) : M A := λ w, (c, w).

Definition gets {A} (f : World → A) : M A := λ w, (Normal (f w), w).

Definition modify (f : World → World) : M unit := λ w, (Normal (), f w).

Definition on_script (f : Script → Script) (w : World) : World :=
  {| script := f (script w); page := page w; browser := browser w |}.

Definition on_page (f : Page → Page) (w : World) : World :=
  {| script := script w; page := f (page w); browser := browser w |}.

Definition on_browser (f : Browser → Browser) (w : World) : World :=
  {| script := script w; page := page w; browser := f (browser w) |}.

(** Assignments to the module variables. *)
Definition set_watchId (v : option Z) (s : Script) : Script :=
  {| watchId := v; positions := positions s; startTime := startTime s;
     lastPositionTime := lastPositionTime s; marker := marker s;
     polyline := polyline s |}.

Definition set_positions (v : list (Point num)) (s : Script) : Script :=
  {| watchId := watchId s; positions := v; startTime := startTime s;
     lastPositionTime := lastPositionTime s; marker := marker s;
     polyline := polyline s |}.

Definition set_marker (v : option (num * num)) (s : Script) : Script :=
  {| watchId := watchId s; positions := positions s; startTime := startTime s;
     lastPositionTime := lastPositionTime s; marker := v;
     polyline := polyline s |}.

Definition set_polyline (v : option (list (Point num))) (s : Script) : Script :=
  {| watchId := watchId s; positions := positions s; startTime := startTime s;
     lastPositionTime := lastPositionTime s; marker := marker s;
     polyline := v |}.

(** Writes to the page. *)
Definition set_buttons (start stop : bool) (p : Page) : Page :=
  {| startBtn_disabled := start; stopBtn_disabled := stop;
     latitudeEl := latitudeEl p; longitudeEl := longitudeEl p;
     speedEl := speedEl p; accuracyEl := accuracyEl p;
     distanceEl := distanceEl p; durationEl := durationEl p;
     pointCountEl := pointCountEl p; notifications := notifications p |}.

Definition set_reading (la lo sp ac : string) (p : Page) : Page :=
  {| startBtn_disabled := startBtn_disabled p;
     stopBtn_disabled := stopBtn_disabled p;
     latitudeEl := la; longitudeEl := lo; speedEl := sp; accuracyEl := ac;
     distanceEl := distanceEl p; durationEl := durationEl p;
     pointCountEl := pointCountEl p; notifications := notifications p |}.

Definition set_distanceEl (v : string) (p : Page) : Page :=
  {| startBtn_disabled := startBtn_disabled p;
     stopBtn_disabled := stopBtn_disabled p;
     latitudeEl := latitudeEl p; longitudeEl := longitudeEl p;
     speedEl := speedEl p; accuracyEl := accuracyEl p;
     distanceEl := v; durationEl := durationEl p;
     pointCountEl := pointCountEl p; notifications := notifications p |}.

Definition set_durationEl (v : string) (p : Page) : Page :=
  {| startBtn_disabled := startBtn_disabled p;
     stopBtn_disabled := stopBtn_disabled p;
     latitudeEl := latitudeEl p; longitudeEl := longitudeEl p;
     speedEl := speedEl p; accuracyEl := accuracyEl p;
     distanceEl := distanceEl p; durationEl := v;
     pointCountEl := pointCountEl p; notifications := notifications p |}.

Definition set_pointCountEl (v : string) (p : Page) : Page :=
  {| startBtn_disabled := startBtn_disabled p;
     stopBtn_disabled := stopBtn_disabled p;
     latitudeEl := latitudeEl p; longitudeEl := longitudeEl p;
     speedEl := speedEl p; accuracyEl := accuracyEl p;
     distanceEl := distanceEl p; durationEl := durationEl p;
     pointCountEl := v; notifications := notifications p |}.

Definition add_notification (v : string) (p : Page) : Page :=
  {| startBtn_disabled := startBtn_disabled p;
     stopBtn_disabled := stopBtn_disabled p;
     latitudeEl := latitudeEl p; longitudeEl := longitudeEl p;
     speedEl := speedEl p; accuracyEl := accuracyEl p;
     distanceEl := distanceEl p; durationEl := durationEl p;
     pointCountEl := pointCountEl p;
     notifications := notifications p ++ [v] |}.

(** Effects on the browser. *)
Definition set_watches (ws : list Z) (next : Z) (b : Browser) : Browser :=
  {| geolocation := geolocation b; watches := ws; nextWatch := next;
     localStorage := localStorage b; storageFull := storageFull b;
     alerts := alerts b; console := console b; now := now b;
     ticks := ticks b |}.

Definition set_localStorage (m : gmap string (payload num)) (b : Browser)
    : Browser :=
  {| geolocation := geolocation b; watches := watches b;
     nextWatch := nextWatch b; localStorage := m;
     storageFull := storageFull b; alerts := alerts b; console := console b;
     now := now b; ticks := ticks b |}.

Definition add_alert (v : string) (b : Browser) : Browser :=
  {| geolocation := geolocation b; watches := watches b;
     nextWatch := nextWatch b; localStorage := localStorage b;
     storageFull := storageFull b; alerts := alerts b ++ [v];
     console := console b; now := now b; ticks := ticks b |}.

Definition add_console (v : string) (b : Browser) : Browser :=
  {| geolocation := geolocation b; watches := watches b;
     nextWatch := nextWatch b; localStorage := localStorage b;
     storageFull := storageFull b; alerts := alerts b;
     console := console b ++ [v]; now := now b; ticks := ticks b |}.

Definition tick (b : Browser) : Browser :=
  {| geolocation := geolocation b; watches := watches b;
     nextWatch := nextWatch b; localStorage := localStorage b;
     storageFull := storageFull b; alerts := alerts b; console := console b;
     now := now b; ticks := S (ticks b) |}.

End World.
Arguments Script : clear implicits.
Arguments Page : clear implicits.
Arguments Browser : clear implicits.
Arguments World : clear implicits.
Arguments M : clear implicits.

#[global] Instance M_ret {num} : MRet (M num) := @ret num.
#[global] Instance M_bind {num} : MBind (M num) := λ A B k m, bind m k.

(** ** Browser services *)

Section Services.
Context {num : Type}.

(** [Date.now()], and the time value of [new Date()]. *)
Definition Date_now : M num Z :=
  λ w, (Normal (now (browser w) (ticks (browser w))), on_browser tick w).

(** [navigator.geolocation.watchPosition]: registers a watch and returns
    its id. *)
Definition watchPosition : M num Z :=
  λ w, let b := browser w in
       (Normal (nextWatch b),
        on_browser (set_watches (watches b ++ [nextWatch b])
                                (nextWatch b + 1)) w).

(** [navigator.geolocation.clearWatch]. *)
Definition clearWatch (id : Z) : M num unit :=
  modify (on_browser (λ b,
    set_watches (filter (λ i, i ≠ id) (watches b)) (nextWatch b) b)).

Definition alert (msg : string) : M num unit :=
  modify (on_browser (add_alert msg)).

Definition console_error (msg : string) : M num unit :=
  modify (on_browser (add_console msg)).

(** [localStorage.getItem]: [None] is null. *)
Definition getItem (key : string) : M num (option (payload num)) :=
  gets (λ w, localStorage (browser w) !! key).

(** [localStorage.setItem]: throws when the storage refuses the write. *)
Definition setItem (key : string) (text : payload num) : M num unit :=
  full ← gets (λ w, storageFull (browser w));
  if (full : bool) then throw QuotaExceededError
  else modify (on_browser (λ b,
         set_localStorage (<[key := text]> (localStorage b)) b)).

(** [raw || '[]']: null and the empty string are falsy. *)
Definition or_empty_array (raw : option (payload num)) : payload num :=
  match raw with
  | None | Some (Malformed "") => Document (JArr [])
  | Some text => text
  end.

Definition JSON_parse (text : payload num) : M num (json num) :=
  match text with
  | Malformed _ => throw SyntaxError
  | Document v => ret v
  end.

Definition JSON_stringify (v : json num) : payload num := Document v.

(** [tracks.push(x)]: only an array has the method. *)
Definition push (tracks : json num) (x : json num) : M num (json num) :=
  match tracks with
  | JArr items => ret (JArr (items ++ [x]))
  | _ => throw TypeError
  end.

(** ToBoolean of a variable holding null or an integral Number. *)
Definition truthyZ (v : option Z) : bool :=
  match v with
  | Some z => negb (z =? 0)%Z
  | None => false
  end.

(** [v || alt] for such a variable: [alt] is evaluated only when [v] is
    falsy. *)
Definition or_else (v : option Z) (alt : M num Z) : M num Z :=
  if truthyZ v then mret (default 0%Z v) else alt.

(** The template [`${Math.floor(seconds/60)}m ${seconds%60}s`]. *)
Definition minutes_seconds (seconds : Z) : string :=
  pretty (seconds / 60)%Z +:+ "m " +:+ pretty (Z.rem seconds 60) +:+ "s".

End Services.

(** ** script.js *)

Section Script.
Context {num : Type} `{Runtime num}.
Local Open Scope num_scope.

(** [showNotification]. *)
Definition showNotification (message : string) : M num unit :=
  modify (on_page (add_notification message)).

(** [getTrackingDuration]. *)
Definition getTrackingDuration : M num string :=
  ps ← gets (λ w, positions (script w));
  if (length ps <? 2)%nat then mret "0s"
  else
    start ← or_else (ps !! 0%nat ≫= timestamp)
              (t ← Date_now; mret (t - Z.of_nat (length ps) * 1000)%Z);
    end_ ← or_else (ps !! (length ps - 1)%nat ≫= timestamp) Date_now;
    let seconds := ((end_ - start + 500) / 1000)%Z in
    mret (minutes_seconds seconds).

(** The expression [JSON.parse(localStorage.getItem('gpsTracks') || '[]')]
    of [saveTrack]: the collection of saved tracks. *)
Definition loadAll : M num (json num) :=
  raw ← getItem "gpsTracks";
  JSON_parse (or_empty_array raw).

(** The statement
    [localStorage.setItem('gpsTracks', JSON.stringify(tracks))]. *)
Definition storeAll (tracks : json num) : M num unit :=
  setItem "gpsTracks" (JSON_stringify tracks).

(** An element of [positions] under [JSON.stringify]: the two numbers of the
    array. *)
Definition point_json (p : Point num) : json num :=
  JArr [JNum (lat p); JNum (lon p)].

(** The object literal [newTrack]. *)
Definition track_json (id : Z) (date startTime_ : string)
    (ps : list (Point num)) (distance : num) (duration : string) : json num :=
  JObj [("id", JInt id); ("date", JStr date); ("startTime", JStr startTime_);
        ("positions", JArr (point_json <$> ps)); ("distance", JNum distance);
        ("duration", JStr duration)].

(** [saveTrack]. *)
Definition saveTrack : M num unit :=
  ps ← gets (λ w, positions (script w));
  if (length ps <? 2)%nat then mret ()
  else
    tracks ← loadAll;
    id ← Date_now;
    date ← Date_now;
    time ← Date_now;
    distance ← lift (calculateDistance ps);
    duration ← getTrackingDuration;
    let newTrack :=
      track_json id (toLocaleString date) (toLocaleTimeString time)
                 ps distance duration in
    tracks' ← push tracks newTrack;
    storeAll tracks';;
    showNotification
      ("Track saved: " +:+ toFixed distance 2 +:+ " km over " +:+ duration).

(** [stopTracking]. *)
Definition stopTracking : M num unit :=
  id ← gets (λ w, watchId (script w));
  (if truthyZ id
   then clearWatch (default 0%Z id);;
        modify (on_script (set_watchId None))
   else mret ());;
  modify (on_page (set_buttons false true));;
  saveTrack.

(** [updateStats]. *)
Definition updateStats : M num unit :=
  ps ← gets (λ w, positions (script w));
  modify (on_page (set_pointCountEl (pretty (length ps))));;
  started ← gets (λ w, startTime (script w));
  (if truthyZ started
   then t ← Date_now;
        let seconds := ((t - default 0%Z started) / 1000)%Z in
        modify (on_page (set_durationEl (minutes_seconds seconds)))
   else mret ());;
  if (1 <? length ps)%nat
  then distance ← lift (calculateDistance ps);
       modify (on_page (set_distanceEl (toFixed distance 2 +:+ " km")))
  else mret ().

(** [updateMap]: the marker is created or moved to the new position, the
    polyline is redrawn from [positions] once there are two of them. *)
Definition updateMap (c : Coords num) : M num unit :=
  modify (on_script (set_marker (Some (latitude c, longitude c))));;
  ps ← gets (λ w, positions (script w));
  (if (1 <? length ps)%nat
   then modify (on_script (set_polyline (Some ps)))
   else mret ());;
  updateStats.

(** The success callback that [startTracking] passes to [watchPosition]. *)
Definition onPosition (c : Coords num) : M num unit :=
  modify (on_page (set_reading
    (toFixed (latitude c) 6)
    (toFixed (longitude c) 6)
    (match speed c with
     | Some s => if truthy s
                 then toFixed (s * (#36 / #10)) 2 +:+ " km/h" else "-"
     | None => "-"
     end)
    (toFixed (accuracy c) 2 +:+ " meters")));;
  updateMap c;;
  ps ← gets (λ w, positions (script w));
  modify (on_script (set_positions
    (ps ++ [{| lat := latitude c; lon := longitude c; timestamp := None |}]))).

(** The error callback that [startTracking] passes to [watchPosition]. *)
Definition onError (message : string) : M num unit :=
  console_error ("Error getting location: " +:+ message);;
  alert ("Error: " +:+ message);;
  stopTracking.

(** [startTracking].  Removing the old polyline from the map leaves the
    variable [polyline] as it is. *)
Definition startTracking : M num unit :=
  supported ← gets (λ w, geolocation (browser w));
  if (supported : bool)
  then modify (on_page (set_buttons true false));;
       modify (on_script (set_positions []));;
       id ← watchPosition;
       modify (on_script (set_watchId (Some id)))
  else alert "Geolocation is not supported by your browser".

(** [clearTracking]. *)
Definition clearTracking : M num unit :=
  modify (on_script (λ s,
    {| watchId := watchId s; positions := []; startTime := None;
       lastPositionTime := None; marker := None; polyline := None |}));;
  modify (on_page (set_reading "-" "-" "-" "-"));;
  modify (on_page (set_distanceEl "0 km"));;
  modify (on_page (set_durationEl "0s"));;
  modify (on_page (set_pointCountEl "0")).

(** The wrapper installed around [watchPosition] when the page loads: it
    stamps the coordinates with the clock and calls the success callback. *)
Definition stamped (c : Coords num) (t : Z) : Coords num :=
  {| latitude := latitude c; longitude := longitude c; speed := speed c;
     accuracy := accuracy c; stamp := Some t |}.

Definition wrappedSuccess (position : Position num) : M num unit :=
  t ← Date_now;
  onPosition (stamped (coords position) t).

(** ** Events *)

(** What the page reacts to: clicks on its three buttons and the deliveries
    of the location source. *)
Inductive event :=
  | ClickStart
  | ClickStop
  | ClickClear
  | Fix (position : Position num)
  | FixError (message : string).

(** A disabled button dispatches no click, and the location source delivers
    only while a watch is registered. *)
Definition dispatch (e : event) : M num unit :=
  match e with
  | ClickStart =>
      off ← gets (λ w, startBtn_disabled (page w));
      if (off : bool) then mret () else startTracking
  | ClickStop =>
      off ← gets (λ w, stopBtn_disabled (page w));
      if (off : bool) then mret () else stopTracking
  | ClickClear => clearTracking
  | Fix position =>
      ws ← gets (λ w, watches (browser w));
      match ws with [] => mret () | _ => wrappedSuccess position end
  | FixError message =>
      ws ← gets (λ w, watches (browser w));
      match ws with [] => mret () | _ => onError message end
  end.

(** An exception that leaves a handler is reported by the browser and the
    page goes on from the state reached. *)
Definition handle (w : World num) (e : event) : World num :=
  (dispatch e w).2.

Definition run (events : list event) (w : World num) : World num :=
  foldl handle w events.

End Script.
Arguments event : clear implicits.

(** ** The real-number runtime *)

(** [Math.atan2 y x] on the reals: the angle of the point [(x, y)]. *)
Definition R_atan2 (y x : R) : R :=
  if Rlt_dec 0 x then atan (y / x)
  else if Rlt_dec x 0 then
    (if Rle_dec 0 y then atan (y / x) + PI else atan (y / x) - PI)
  else if Rlt_dec 0 y then PI / 2
  else if Rlt_dec y 0 then - (PI / 2)
  else 0.

Definition R_truthy (x : R) : bool :=
  if Req_dec_T x 0 then false else true.

Fixpoint zeros (k : nat) : string :=
  match k with
  | O => ""
  | S k' => "0" +:+ zeros k'
  end.

(** The digits of [n / 10^digits] with [digits] decimals. *)
Definition fixed_point (n : Z) (digits : nat) : string :=
  match digits with
  | O => pretty n
  | S _ =>
      let m := pretty n in
      let m := zeros (S digits - String.length m) +:+ m in
      let k := String.length m in
      String.substring 0 (k - digits) m +:+ "." +:+
      String.substring (k - digits) digits m
  end.

(** [x.toFixed(digits)]: the sign, then the nearest multiple of
    [10^-digits] to [|x|], the larger one on a tie (the exponent notation
    that JavaScript switches to from [10^21] on is left out). *)
Definition R_toFixed (x : R) (digits : nat) : string :=
  (if Rlt_dec x 0 then "-" else "") +:+
  fixed_point (Int_part (Rabs x * 10 ^ digits + / 2)) digits.

(** Dates are displayed by their time value in this runtime. *)
#[global] Instance R_Runtime : Runtime R := {|
  of_Z := IZR;
  nadd := Rplus;
  nsub := Rminus;
  nmul := Rmult;
  ndiv := Rdiv;
  Math_PI := PI;
  Math_sin := sin;
  Math_cos := cos;
  Math_sqrt := sqrt;
  Math_atan2 := R_atan2;
  truthy := R_truthy;
  toFixed := R_toFixed;
  toLocaleString := λ t, "date " +:+ pretty t;
  toLocaleTimeString := λ t, "time " +:+ pretty t
|}.

(** ** Sample worlds *)

(** The page as loaded, a browser with an empty storage whose clock reads
    [clock], and the script before any event. *)
Definition fresh_script : Script R :=
  {| watchId := None; positions := []; startTime := None;
     lastPositionTime := None; marker := None; polyline := None |}.

Definition fresh_page : Page :=
  {| startBtn_disabled := false; stopBtn_disabled := true;
     latitudeEl := "-"; longitudeEl := "-"; speedEl := "-";
     accuracyEl := "-"; distanceEl := "0 km"; durationEl := "0s";
     pointCountEl := "0"; notifications := [] |}.

Definition fresh_browser (clock : nat → Z) : Browser R :=
  {| geolocation := true; watches := []; nextWatch := 1;
     localStorage := ∅; storageFull := false; alerts := []; console := [];
     now := clock; ticks := 0 |}.

Definition fresh_world (clock : nat → Z) : World R :=
  {| script := fresh_script; page := fresh_page;
     browser := fresh_browser clock |}.

(** A reading of the location source at [(la, lo)] captured at [t]. *)
Definition reading (la lo : R) (t : Z) : Position R :=
  {| coords := {| latitude := la; longitude := lo; speed := None;
                  accuracy := 5%R; stamp := None |};
     captured := t |}.

(** ** Vocabulary of the properties *)

Section Vocabulary.
Context {num : Type} `{Runtime num}.

(** The property [key] of a JSON object, [None] when undefined. *)
Fixpoint assoc (key : string) (fields : list (string * json num))
    : option (json num) :=
  match fields with
  | [] => None
  | (k, v) :: rest => if String.eqb k key then Some v else assoc key rest
  end.

Definition field (key : string) (v : json num) : option (json num) :=
  match v with
  | JObj fields => assoc key fields
  | _ => None
  end.

(** The item that the script keeps in the storage. *)
Definition stored (w : World num) : option (payload num) :=
  localStorage (browser w) !! "gpsTracks".


(** A session is recording while the script holds a watch. *)
Definition recording (w : World num) : bool :=
  truthyZ (watchId (script w)).

(** The time that the clock shows in [w]. *)
Definition present (w : World num) : Z :=
  now (browser w) (ticks (browser w)).


(** The reading of the clock [i] readings from now. *)
Definition reading_at (w : World num) (i : nat) : Z :=
  now (browser w) (i + ticks (browser w))%nat.

(** The world after [j] readings of the clock. *)
Definition ticked (j : nat) (w : World num) : World num :=
  on_browser (Nat.iter j tick) w.

(** The world after the first statements of [stopTracking], up to the call
    of [saveTrack]: the watch is cleared and the buttons are switched. *)
Definition halted (w : World num) : World num :=
  on_page (set_buttons false true)
    (if truthyZ (watchId (script w))
     then on_script (set_watchId None)
            (on_browser (λ b,
               set_watches
                 (filter (λ i, i ≠ default 0%Z (watchId (script w)))
                         (watches b))
                 (nextWatch b) b) w)
     else w).

(** The world after a track is written over the collection [items] and
    announced, as the last two statements of [saveTrack] leave it. *)
Definition saved (items : list (json num)) (track : json num)
    (message : string) (w : World num) : World num :=
  on_page (add_notification message)
    (on_browser (λ b,
       set_localStorage
         (<["gpsTracks" := Document (JArr (items ++ [track]))]>
            (localStorage b)) b) w).

(** The effect of a handler on the clock and the storage: the clock runs
    on, and the storage is left as it is or gains one track whose id is a
    reading of the clock made by the handler. *)
Definition advances (w w' : World num) : Prop :=
  now (browser w') = now (browser w) ∧
  (ticks (browser w) ≤ ticks (browser w'))%nat ∧
  (localStorage (browser w') = localStorage (browser w) ∨
   ∃ items track (k : nat),
     or_empty_array (stored w) = Document (JArr items) ∧
     localStorage (browser w')
       = <["gpsTracks" := Document (JArr (items ++ [track]))]>
           (localStorage (browser w)) ∧
     field "id" track = Some (JInt (now (browser w) k)) ∧
     (ticks (browser w) ≤ k < ticks (browser w'))%nat).





End Vocabulary.




(** ** Sample sessions *)

(** A clock that shows one more second at every reading. *)
Definition steady_clock (k : nat) : Z := 1000 * (Z.of_nat k + 1).

(** A clock that is set back one second after its first reading. *)
Definition backward_clock (k : nat) : Z :=
  match k with
  | O => 2000
  | S _ => 1000
  end.

(** A clock that shows 1 s and 99 s at the two fixes of a session and 100 s
    from then on. *)
Definition long_session_clock (k : nat) : Z :=
  match k with
  | 0%nat => 1000
  | 1%nat => 99000
  | _ => 100000
  end.


(** A session that was started and has no sample yet. *)
Definition started (clock : nat → Z) : World R :=
  handle (fresh_world clock) ClickStart.

(** A session that was started and has received two fixes. *)
Definition two_fixes : list (event R) :=
  [ClickStart; Fix (reading 0 0 1000); Fix (reading 0 1 2000)].

Definition tracked (clock : nat → Z) : World R :=
  run two_fixes (fresh_world clock).

(** The same session over a storage whose item is not JSON. *)
Definition corrupted (clock : nat → Z) : World R :=
  on_browser (set_localStorage {["gpsTracks" := Malformed "not json"]})
    (tracked clock).

(** ** Vocabulary of the further properties *)

Section Vocabulary2.
Context {num : Type} `{Runtime num}.

(** The sample that the success callback stores for a delivered position. *)
Definition stored_sample (position : Position num) : Point num :=
  {| lat := latitude (coords position); lon := longitude (coords position);
     timestamp := None |}.

(** The two states that the buttons of the page tell apart.  Idle: start is
    enabled and no watch is registered or held.  Tracking: start is
    disabled, stop is enabled, and the one registered watch is the one that
    the script holds. *)
Definition idle (w : World num) : Prop :=
  startBtn_disabled (page w) = false ∧ watches (browser w) = [] ∧
  watchId (script w) = None.

Definition tracking (w : World num) : Prop :=
  startBtn_disabled (page w) = true ∧ stopBtn_disabled (page w) = false ∧
  ∃ id : Z, id ≠ 0%Z ∧ watches (browser w) = [id] ∧
            watchId (script w) = Some id.

Definition lifecycle (w : World num) : Prop :=
  (0 < nextWatch (browser w))%Z ∧ (idle w ∨ tracking w).

(** The pages that differ in their notifications at most. *)
Definition same_display (p p' : Page) : Prop :=
  startBtn_disabled p' = startBtn_disabled p ∧
  stopBtn_disabled p' = stopBtn_disabled p ∧
  latitudeEl p' = latitudeEl p ∧ longitudeEl p' = longitudeEl p ∧
  speedEl p' = speedEl p ∧ accuracyEl p' = accuracyEl p ∧
  distanceEl p' = distanceEl p ∧ durationEl p' = durationEl p ∧
  pointCountEl p' = pointCountEl p.

End Vocabulary2.

(** The session with two fixes over a storage that refuses every write. *)
Definition refused (clock : nat → Z) : World R :=
  on_browser (λ b,
    {| geolocation := geolocation b; watches := watches b;
       nextWatch := nextWatch b; localStorage := localStorage b;
       storageFull := true; alerts := alerts b; console := console b;
       now := now b; ticks := ticks b |})
    (tracked clock).

(** * Properties *)

(** Unfolds the operations of the monad [M]. *)
Ltac unfold_monad :=
  unfold mbind, M_bind, mret, M_ret, bind, ret, gets, modify, lift, throw in *.

(** ** The distance loop *)

Section Distance_facts.
Context {num : Type} `{Runtime num}.
Local Open Scope num_scope.

(** The loop of [calculateDistance], resumed after the prefix [pre] with the
    running total [t], adds up the consecutive pairs that remain. *)
Lemma calculateDistance_loop (pre : list (Point num)) (p : Point num)
    (rest : list (Point num)) (t : num) :
  foldl (calculateDistance_step (pre ++ p :: rest)) (Normal t)
        (seq (S (length pre)) (length rest))
  = Normal (foldl (λ total pq, total + haversineDistanceKm pq.1 pq.2) t
                  (zip (p :: rest) rest)).
Proof.
  revert pre p t.
  induction rest as [|q rest IH]; intros pre p t; [reflexivity|].
  cbn [length seq foldl zip zip_with].
  unfold calculateDistance_step at 2.
  replace (S (length pre) - 1)%nat with (length pre) by lia.
  rewrite (lookup_app_r pre) by lia.
  rewrite (lookup_app_r pre (p :: q :: rest) (S (length pre))) by lia.
  replace (length pre - length pre)%nat with 0%nat by lia.
  replace (S (length pre) - length pre)%nat with 1%nat by lia.
  cbn [lookup list_lookup].
  specialize (IH (pre ++ [p]) q
    (t + haversineDistance (lat p) (lon p) (lat q) (lon q))).
  rewrite <- app_assoc in IH. cbn [app] in IH.
  rewrite length_app in IH. cbn [length] in IH.
  replace (length pre + 1)%nat with (S (length pre)) in IH by lia.
  exact IH.
Qed.

Lemma calculateDistance_sum (points : list (Point num)) :
  calculateDistance points = Normal (pathDistanceKm points).
Proof.
  destruct points as [|p rest]; [reflexivity|].
  unfold calculateDistance, pathDistanceKm, consecutive_pairs.
  cbn [length tail].
  replace (S (length rest) - 1)%nat with (length rest) by lia.
  exact (calculateDistance_loop [] p rest #0).
Qed.

End Distance_facts.

(** ** Running the script *)

Section Exec.
Context {num : Type} `{Runtime num}.

Lemma bind_normal {A B} (m : M num A) (k : A → M num B) w a w' :
  m w = (Normal a, w') → (m ≫= k) w = k a w'.
Proof. intros E. unfold mbind, M_bind, bind. now rewrite E. Qed.

Lemma bind_throw {A B} (m : M num A) (k : A → M num B) w e w' :
  m w = (Throw e, w') → (m ≫= k) w = (Throw e, w').
Proof. intros E. unfold mbind, M_bind, bind. now rewrite E. Qed.

(** Reading the clock changes nothing but the count of the readings. *)
Lemma iter_tick (j : nat) (b : Browser num) :
  Nat.iter j tick b =
  {| geolocation := geolocation b; watches := watches b;
     nextWatch := nextWatch b; localStorage := localStorage b;
     storageFull := storageFull b; alerts := alerts b; console := console b;
     now := now b; ticks := j + ticks b |}.
Proof.
  induction j as [|j IH]; [now destruct b|].
  rewrite Nat.iter_succ, IH. reflexivity.
Qed.

Lemma ticked_ticked (i j : nat) (w : World num) :
  ticked i (ticked j w) = ticked (i + j) w.
Proof.
  unfold ticked, on_browser; cbn. f_equal.
  rewrite !iter_tick; cbn. f_equal. lia.
Qed.

Lemma Date_now_ticked (w : World num) :
  Date_now w = (Normal (reading_at w 0), ticked 1 w).
Proof. reflexivity. Qed.

(** [getTrackingDuration] returns, after at most two readings of the
    clock. *)
Lemma getTrackingDuration_runs (w : World num) :
  ∃ (j : nat) (d : string),
    (j ≤ 2)%nat ∧ getTrackingDuration w = (Normal d, ticked j w).
Proof.
  unfold getTrackingDuration, or_else, Date_now. unfold_monad. cbn.
  destruct w as [s p b]; cbn.
  destruct (length (positions s) <=? 1)%nat.
  { exists 0%nat; eexists; split; [lia|]. now destruct b. }
  destruct (truthyZ _), (truthyZ _); cbn.
  - exists 0%nat; eexists; split; [lia|]. now destruct b.
  - exists 1%nat; eexists; split; [lia|reflexivity].
  - exists 1%nat; eexists; split; [lia|reflexivity].
  - exists 2%nat; eexists; split; [lia|reflexivity].
Qed.

Lemma short_ltb (ps : list (Point num)) :
  (length ps < 2)%nat → (length ps <? 2)%nat = true.
Proof. intros. now apply Nat.ltb_lt. Qed.

Lemma long_ltb (ps : list (Point num)) :
  (2 ≤ length ps)%nat → (length ps <? 2)%nat = false.
Proof. intros. apply Nat.ltb_ge. lia. Qed.

(** With fewer than two samples [saveTrack] returns at once. *)
Lemma saveTrack_short (w : World num) :
  (length (positions (script w)) < 2)%nat → saveTrack w = (Normal (), w).
Proof.
  intros Hlen. unfold saveTrack. unfold_monad.
  now rewrite (short_ltb _ Hlen).
Qed.

Lemma loadAll_eq (w : World num) :
  loadAll w = match or_empty_array (stored w) with
              | Malformed _ => (Throw SyntaxError, w)
              | Document v => (Normal v, w)
              end.
Proof.
  unfold loadAll, getItem, JSON_parse, stored. unfold_monad.
  now destruct (or_empty_array _).
Qed.

(** The body of [saveTrack] once the collection is loaded. *)
Lemma saveTrack_loaded (w : World num) (v : json num) :
  (2 ≤ length (positions (script w)))%nat →
  or_empty_array (stored w) = Document v →
  ∃ (j : nat) (duration : string),
    (j ≤ 2)%nat ∧
    getTrackingDuration (ticked 3 w) = (Normal duration, ticked (j + 3) w) ∧
    let ps := positions (script w) in
    let track :=
      track_json (reading_at w 0) (toLocaleString (reading_at w 1))
        (toLocaleTimeString (reading_at w 2)) ps (pathDistanceKm ps)
        duration in
    let message :=
      "Track saved: " +:+ toFixed (pathDistanceKm ps) 2 +:+ " km over "
      +:+ duration in
    saveTrack w =
      match v with
      | JArr items =>
          if storageFull (browser w)
          then (Throw QuotaExceededError, ticked (j + 3) w)
          else (Normal (), saved items track message (ticked (j + 3) w))
      | _ => (Throw TypeError, ticked (j + 3) w)
      end.
Proof.
  intros Hlen Hload.
  destruct (getTrackingDuration_runs (ticked 3 w)) as (j & d & Hj & Hd).
  rewrite ticked_ticked in Hd.
  exists j, d. split; [exact Hj|]. split; [exact Hd|].
  cbn zeta. unfold saveTrack.
  unfold mbind at 1, M_bind at 1, bind at 1, gets at 1.
  rewrite (long_ltb _ Hlen).
  unfold mbind at 1, M_bind at 1, bind at 1.
  rewrite loadAll_eq, Hload.
  do 3 (unfold mbind at 1, M_bind at 1, bind at 1; rewrite Date_now_ticked).
  rewrite !ticked_ticked. cbn [Nat.add].
  unfold mbind at 1, M_bind at 1, bind at 1, lift at 1.
  rewrite calculateDistance_sum.
  unfold mbind at 1, M_bind at 1, bind at 1. rewrite Hd.
  unfold push, storeAll, setItem, showNotification, JSON_stringify, saved.
  unfold_monad.
  assert (Hfull : storageFull (browser (ticked (j + 3) w))
                  = storageFull (browser w)).
  { unfold ticked; cbn. now rewrite iter_tick. }
  assert (Hr1 : reading_at (ticked 1 w) 0 = reading_at w 1).
  { unfold reading_at, ticked; cbn. reflexivity. }
  assert (Hr2 : reading_at (ticked 2 w) 0 = reading_at w 2).
  { unfold reading_at, ticked; cbn. reflexivity. }
  rewrite Hr1, Hr2.
  destruct v; try reflexivity.
  rewrite Hfull. now destruct (storageFull (browser w)).
Qed.

(** [stopTracking] is [saveTrack] after the watch is cleared. *)
Lemma stopTracking_saveTrack (w : World num) :
  stopTracking w = saveTrack (halted w).
Proof.
  unfold stopTracking, halted, clearWatch. unfold_monad.
  now destruct (truthyZ (watchId (script w))).
Qed.

End Exec.

(** ** Stopping *)

Section Stop.
Context {num : Type} `{Runtime num}.

(** What the first statements of [stopTracking] leave alone. *)
Lemma halted_keeps (w : World num) :
  positions (script (halted w)) = positions (script w) ∧
  localStorage (browser (halted w)) = localStorage (browser w) ∧
  storageFull (browser (halted w)) = storageFull (browser w) ∧
  notifications (page (halted w)) = notifications (page w) ∧
  alerts (browser (halted w)) = alerts (browser w) ∧
  console (browser (halted w)) = console (browser w) ∧
  now (browser (halted w)) = now (browser w) ∧
  ticks (browser (halted w)) = ticks (browser w).
Proof. unfold halted. now destruct (truthyZ (watchId (script w))). Qed.

Lemma halted_stored (w : World num) : stored (halted w) = stored w.
Proof. unfold stored. now rewrite (proj1 (proj2 (halted_keeps w))). Qed.

Lemma halted_recording (w : World num) : recording (halted w) = false.
Proof.
  unfold recording, halted.
  destruct (truthyZ (watchId (script w))) eqn:E; cbn; [reflexivity|exact E].
Qed.

Lemma halted_reading_at (w : World num) (i : nat) :
  reading_at (halted w) i = reading_at w i.
Proof.
  unfold reading_at.
  destruct (halted_keeps w) as (_ & _ & _ & _ & _ & _ & -> & ->).
  reflexivity.
Qed.

(** What writing a track leaves alone, and what it writes. *)
Lemma saved_keeps items track message (j : nat) (w : World num) :
  let w' := saved items track message (ticked j w) in
  script w' = script w ∧
  stored w' = Some (Document (JArr (items ++ [track]))) ∧
  localStorage (browser w')
    = <["gpsTracks" := Document (JArr (items ++ [track]))]>
        (localStorage (browser w)) ∧
  storageFull (browser w') = storageFull (browser w) ∧
  notifications (page w') = notifications (page w) ++ [message] ∧
  now (browser w') = now (browser w) ∧
  ticks (browser w') = (j + ticks (browser w))%nat.
Proof.
  unfold saved, ticked, stored; cbn. rewrite iter_tick; cbn.
  rewrite lookup_insert_eq. repeat split.
Qed.

(** [stopTracking] with two samples or more, a collection [items] in the
    storage and a storage that takes the write. *)
Lemma stopTracking_saves (w : World num) (items : list (json num)) :
  (2 ≤ length (positions (script w)))%nat →
  or_empty_array (stored w) = Document (JArr items) →
  storageFull (browser w) = false →
  ∃ (j : nat) (duration : string),
    let ps := positions (script w) in
    stopTracking w =
      (Normal (),
       saved items
         (track_json (reading_at w 0) (toLocaleString (reading_at w 1))
            (toLocaleTimeString (reading_at w 2)) ps (pathDistanceKm ps)
            duration)
         ("Track saved: " +:+ toFixed (pathDistanceKm ps) 2 +:+ " km over "
          +:+ duration)
         (ticked (j + 3) (halted w))).
Proof.
  intros Hlen Hload Hfull.
  destruct (halted_keeps w) as (Hps & _ & Hf & _).
  destruct (saveTrack_loaded (halted w) (JArr items)) as (j & d & _ & _ & E).
  - now rewrite Hps.
  - now rewrite halted_stored.
  - exists j, d. cbn zeta in *.
    rewrite stopTracking_saveTrack, E, Hf, Hfull, Hps.
    now rewrite !halted_reading_at.
Qed.




End Stop.

(** ** Ingesting and starting *)

Section Ingest.
Context {num : Type} `{Runtime num}.

(** [updateStats] returns; it writes the page and may read the clock. *)
Lemma updateStats_runs (w : World num) :
  ∃ w' : World num,
    updateStats w = (Normal (), w') ∧
    script w' = script w ∧
    pointCountEl (page w') = pretty (length (positions (script w))) ∧
    startBtn_disabled (page w') = startBtn_disabled (page w) ∧
    stopBtn_disabled (page w') = stopBtn_disabled (page w) ∧
    notifications (page w') = notifications (page w) ∧
    browser w' = browser (ticked (if truthyZ (startTime (script w))
                                  then 1 else 0) w).
Proof.
  unfold updateStats, Date_now. unfold_monad.
  rewrite calculateDistance_sum.
  destruct w as [s p b]; cbn.
  destruct (truthyZ (startTime s)), (length (positions s)) as [|[|n]]; cbn;
    (eexists; split; [reflexivity|]); cbn; repeat split;
    now destruct b.
Qed.


(** [updateMap] returns; beside the marker and the polyline it does what
    [updateStats] does. *)
Lemma updateMap_runs (c : Coords num) (w : World num) :
  ∃ w' : World num,
    updateMap c w = (Normal (), w') ∧
    positions (script w') = positions (script w) ∧
    watchId (script w') = watchId (script w) ∧
    startTime (script w') = startTime (script w) ∧
    pointCountEl (page w') = pretty (length (positions (script w))) ∧
    startBtn_disabled (page w') = startBtn_disabled (page w) ∧
    stopBtn_disabled (page w') = stopBtn_disabled (page w) ∧
    notifications (page w') = notifications (page w) ∧
    browser w' = browser (ticked (if truthyZ (startTime (script w))
                                  then 1 else 0) w).
Proof.
  unfold updateMap.
  erewrite bind_normal by reflexivity.
  erewrite bind_normal by reflexivity.
  cbn [positions script on_script set_marker].
  destruct (1 <? length (positions (script w)))%nat;
    (erewrite bind_normal by reflexivity);
    match goal with
    | |- ∃ w', updateStats ?w1 = _ ∧ _ =>
        destruct (updateStats_runs w1)
          as (w2 & E & Hs & Hpc & Hb1 & Hb2 & Hn & Hb)
    end;
    exists w2; (split; [exact E|]);
    rewrite Hs, Hpc, Hb1, Hb2, Hn, Hb; cbn; rewrite !iter_tick;
    repeat split.
Qed.

(** The success callback returns and appends the sample it was given. *)
Lemma onPosition_runs (c : Coords num) (w : World num) :
  ∃ w' : World num,
    onPosition c w = (Normal (), w') ∧
    positions (script w')
      = positions (script w)
        ++ [{| lat := latitude c; lon := longitude c; timestamp := None |}] ∧
    watchId (script w') = watchId (script w) ∧
    startTime (script w') = startTime (script w) ∧
    pointCountEl (page w') = pretty (length (positions (script w))) ∧
    startBtn_disabled (page w') = startBtn_disabled (page w) ∧
    stopBtn_disabled (page w') = stopBtn_disabled (page w) ∧
    notifications (page w') = notifications (page w) ∧
    browser w' = browser (ticked (if truthyZ (startTime (script w))
                                  then 1 else 0) w).
Proof.
  unfold onPosition.
  erewrite bind_normal by reflexivity.
  match goal with
  | |- ∃ w', (updateMap c ≫= _) ?w0 = _ ∧ _ =>
      destruct (updateMap_runs c w0)
        as (w1 & E & Hps & Hid & Hst & Hpc & Hb1 & Hb2 & Hn & Hb)
  end.
  erewrite bind_normal by exact E.
  erewrite bind_normal by reflexivity.
  eexists. split; [reflexivity|].
  cbn in *. rewrite Hps, Hid, Hst, Hpc, Hb1, Hb2, Hn, Hb.
  rewrite !iter_tick. repeat split.
Qed.

Lemma wrappedSuccess_runs (position : Position num) (w : World num) :
  ∃ w' : World num,
    wrappedSuccess position w = (Normal (), w') ∧
    positions (script w')
      = positions (script w)
        ++ [{| lat := latitude (coords position);
               lon := longitude (coords position); timestamp := None |}] ∧
    watchId (script w') = watchId (script w) ∧
    startTime (script w') = startTime (script w) ∧
    pointCountEl (page w') = pretty (length (positions (script w))) ∧
    startBtn_disabled (page w') = startBtn_disabled (page w) ∧
    stopBtn_disabled (page w') = stopBtn_disabled (page w) ∧
    notifications (page w') = notifications (page w) ∧
    browser w' = browser (ticked (if truthyZ (startTime (script w))
                                  then 2 else 1) w).
Proof.
  unfold wrappedSuccess.
  rewrite (bind_normal _ _ _ _ _ (Date_now_ticked w)).
  destruct (onPosition_runs (stamped (coords position) (reading_at w 0))
              (ticked 1 w))
    as (w' & E & Hps & Hid & Hst & Hpc & Hb1 & Hb2 & Hn & Hb).
  exists w'. split; [exact E|]. cbn in *.
  repeat split; try assumption.
  rewrite Hb. rewrite !iter_tick.
  now destruct (truthyZ (startTime (script w))).
Qed.

(** [startTracking] returns, whatever the state. *)
Lemma startTracking_runs (w : World num) :
  startTracking w =
    (Normal (),
     if geolocation (browser w)
     then on_script (set_watchId (Some (nextWatch (browser w))))
            (on_browser
               (set_watches (watches (browser w) ++ [nextWatch (browser w)])
                            (nextWatch (browser w) + 1))
               (on_script (set_positions [])
                  (on_page (set_buttons true false) w)))
     else on_browser
            (add_alert "Geolocation is not supported by your browser") w).
Proof.
  unfold startTracking, watchPosition, alert. unfold_monad.
  now destruct (geolocation (browser w)).
Qed.

End Ingest.

(** ** Handlers and invariants *)

Section Effects.
Context {num : Type} `{Runtime num}.

Lemma advances_refl (w : World num) : advances w w.
Proof. unfold advances. auto. Qed.

(** A call that only reads the clock. *)
Lemma advances_quiet (w w' : World num) :
  now (browser w') = now (browser w) →
  (ticks (browser w) ≤ ticks (browser w'))%nat →
  localStorage (browser w') = localStorage (browser w) →
  advances w w'.
Proof. unfold advances. auto. Qed.

Lemma advances_after (w w0 w' : World num) :
  now (browser w0) = now (browser w) →
  ticks (browser w0) = ticks (browser w) →
  localStorage (browser w0) = localStorage (browser w) →
  advances w0 w' → advances w w'.
Proof.
  unfold advances, stored. intros -> -> ->. auto.
Qed.

Lemma saveTrack_malformed (w : World num) (text : string) :
  (2 ≤ length (positions (script w)))%nat →
  or_empty_array (stored w) = Malformed text →
  saveTrack w = (Throw SyntaxError, w).
Proof.
  intros Hlen Hload. unfold saveTrack.
  unfold mbind at 1, M_bind at 1, bind at 1, gets at 1.
  rewrite (long_ltb _ Hlen).
  apply bind_throw. now rewrite loadAll_eq, Hload.
Qed.

Lemma ticked_keeps (j : nat) (w : World num) :
  script (ticked j w) = script w ∧ page (ticked j w) = page w ∧
  localStorage (browser (ticked j w)) = localStorage (browser w) ∧
  now (browser (ticked j w)) = now (browser w) ∧
  ticks (browser (ticked j w)) = (j + ticks (browser w))%nat.
Proof. unfold ticked; cbn. rewrite iter_tick. repeat split. Qed.

(** The effect of [saveTrack] on the variables of the script, the clock and
    the storage. *)
Lemma saveTrack_effect (w : World num) :
  script (saveTrack w).2 = script w ∧ advances w (saveTrack w).2.
Proof.
  destruct (Nat.lt_ge_cases (length (positions (script w))) 2) as [Hlen|Hlen].
  { rewrite saveTrack_short by exact Hlen. split; [reflexivity|].
    apply advances_refl. }
  destruct (or_empty_array (stored w)) as [text|v] eqn:Hload.
  { rewrite (saveTrack_malformed w text Hlen Hload). split; [reflexivity|].
    apply advances_refl. }
  destruct (saveTrack_loaded w v Hlen Hload) as (j & d & _ & _ & E).
  cbn zeta in E. rewrite E.
  destruct (ticked_keeps (j + 3) w) as (Hs & Hp & Hl & Hn & Ht).
  assert (Hq : script (ticked (j + 3) w) = script w ∧
               advances w (ticked (j + 3) w)).
  { split; [exact Hs|].
    apply advances_quiet; [exact Hn|lia|exact Hl]. }
  destruct v; try exact Hq.
  destruct (storageFull (browser w)); [exact Hq|].
  match goal with
  | |- context [saved items ?t ?m _] =>
      destruct (saved_keeps items t m (j + 3) w)
        as (Hs' & _ & Hl' & _ & _ & Hn' & Ht')
  end.
  cbn [snd]. split; [exact Hs'|].
  split; [exact Hn'|]. split; [lia|]. right.
  eexists items, _, (ticks (browser w)).
  split; [exact Hload|]. split; [exact Hl'|].
  split; [reflexivity|]. lia.
Qed.

Lemma stopTracking_effect (w : World num) :
  positions (script (stopTracking w).2) = positions (script w) ∧
  startTime (script (stopTracking w).2) = startTime (script w) ∧
  advances w (stopTracking w).2.
Proof.
  rewrite stopTracking_saveTrack.
  destruct (saveTrack_effect (halted w)) as (Hs & Hadv).
  destruct (halted_keeps w) as (Hps0 & Hl & _ & _ & _ & _ & Hn & Ht).
  rewrite Hs. split; [exact Hps0|]. split.
  - unfold halted. now destruct (truthyZ (watchId (script w))).
  - now apply (advances_after w (halted w)).
Qed.

(** Every handler lets the clock run on and leaves the storage as it is or
    with one more track. *)
Lemma dispatch_advances (e : event num) (w : World num) :
  advances w (handle w e).
Proof.
  unfold handle.
  destruct e as [| | |position|message]; cbn [dispatch].
  - unfold mbind, M_bind, bind, gets.
    destruct (startBtn_disabled (page w)); [apply advances_refl|].
    rewrite startTracking_runs. cbn [snd].
    destruct (geolocation (browser w)); now apply advances_quiet.
  - unfold mbind, M_bind, bind, gets.
    destruct (stopBtn_disabled (page w)); [apply advances_refl|].
    apply stopTracking_effect.
  - now apply advances_quiet.
  - unfold mbind, M_bind, bind, gets.
    destruct (watches (browser w)); [apply advances_refl|].
    destruct (wrappedSuccess_runs position w) as (w' & E & Hb).
    rewrite E. cbn [snd].
    destruct Hb as (_ & _ & _ & _ & _ & _ & _ & Hb).
    destruct (ticked_keeps (if truthyZ (startTime (script w)) then 2 else 1)
                w) as (_ & _ & Hl & Hn & Ht).
    apply advances_quiet; rewrite Hb; [exact Hn|lia|exact Hl].
  - unfold mbind, M_bind, bind, gets.
    destruct (watches (browser w)) eqn:Hw; [apply advances_refl|].
    unfold onError, console_error, alert.
    unfold mbind, M_bind, bind, modify.
    match goal with
    | |- advances w (stopTracking ?w0).2 =>
        apply (advances_after w w0); [reflexivity..|];
        apply stopTracking_effect
    end.
Qed.




(** What every handler does to the samples and to [startTime]: the samples
    are kept, emptied, or extended by one sample without a timestamp, and
    [startTime] is kept or set to null. *)
Lemma handle_script (e : event num) (w : World num) :
  (positions (script (handle w e)) = positions (script w) ∨
   positions (script (handle w e)) = [] ∨
   ∃ la lo : num,
     positions (script (handle w e))
     = positions (script w) ++ [{| lat := la; lon := lo; timestamp := None |}])
  ∧ (startTime (script (handle w e)) = startTime (script w) ∨
     startTime (script (handle w e)) = None).
Proof.
  unfold handle.
  destruct e as [| | |position|message]; cbn [dispatch].
  - unfold mbind, M_bind, bind, gets.
    destruct (startBtn_disabled (page w)); [auto|].
    rewrite startTracking_runs. cbn [snd].
    destruct (geolocation (browser w)); cbn; auto.
  - unfold mbind, M_bind, bind, gets.
    destruct (stopBtn_disabled (page w)); [auto|].
    destruct (stopTracking_effect w) as (-> & -> & _). auto.
  - cbn. auto.
  - unfold mbind, M_bind, bind, gets.
    destruct (watches (browser w)); [auto|].
    destruct (wrappedSuccess_runs position w) as (w' & E & Hps & _ & Hst & _).
    rewrite E. cbn [snd]. rewrite Hps, Hst. split; [|auto].
    right; right. eauto.
  - unfold mbind, M_bind, bind, gets.
    destruct (watches (browser w)); [auto|].
    unfold onError, console_error, alert.
    unfold mbind, M_bind, bind, modify.
    match goal with
    | |- context [stopTracking ?w0] =>
        destruct (stopTracking_effect w0) as (-> & -> & _)
    end.
    auto.
Qed.

(** No handler stores a timestamp with a sample, and none assigns a time to
    [startTime]. *)
Lemma run_script (events : list (event num)) (w : World num) :
  Forall (λ p, timestamp p = None) (positions (script w)) →
  startTime (script w) = None →
  Forall (λ p, timestamp p = None) (positions (script (run events w))) ∧
  startTime (script (run events w)) = None.
Proof.
  revert w. induction events as [|e events IH]; intros w Hps Hst; [auto|].
  cbn [run foldl]. apply IH.
  - destruct (handle_script e w) as ([-> | [-> | (la & lo & ->)]] & _).
    + exact Hps.
    + constructor.
    + apply Forall_app. split; [exact Hps|]. now constructor.
  - destruct (handle_script e w) as (_ & [-> | ->]); auto.
Qed.

End Effects.

(** ** The distance, the session and the store *)

Section Claims.
Context {num : Type} `{Runtime num}.
Local Open Scope num_scope.

(** C6: [calculateDistance] returns the sum of [haversineDistanceKm] over the
    consecutive pairs of the sequence, taken in order from 0; it returns 0
    for the empty sequence and for a single point.  It is a function of the
    points alone. *)
Theorem calculateDistance_pathDistanceKm (points : list (Point num)) :
  calculateDistance points = Normal (pathDistanceKm points) ∧
  calculateDistance [] = Normal #0 ∧
  (∀ p : Point num, calculateDistance [p] = Normal #0) ∧
  (∀ p q : Point num,
     pathDistanceKm (points ++ [p; q])
     = pathDistanceKm (points ++ [p]) + haversineDistanceKm p q).
Proof.
  split; [apply calculateDistance_sum|].
  split; [reflexivity|]. split; [reflexivity|].
  intros p q. unfold pathDistanceKm, consecutive_pairs.
  destruct points as [|p0 rest]; [reflexivity|].
  cbn [app tail].
  assert (Hzip : ∀ (l : list (Point num)) (a : Point num),
    zip (a :: l ++ [p; q]) (l ++ [p; q])
    = zip (a :: l ++ [p]) (l ++ [p]) ++ [(p, q)]).
  { induction l as [|b l IH]; intros a; [reflexivity|].
    cbn [app zip zip_with]. cbn [zip zip_with] in IH. now rewrite IH. }
  rewrite Hzip, foldl_app. reflexivity.
Qed.

(** C2 (as the script has it): the success callback appends the sample it is
    given, whatever its timestamps; the sequence grows by one. *)
Theorem ingest_appends_whatever_the_timestamp
    (position : Position num) (w : World num) :
  ∃ w' : World num,
    wrappedSuccess position w = (Normal (), w') ∧
    positions (script w')
      = positions (script w)
        ++ [{| lat := latitude (coords position);
               lon := longitude (coords position); timestamp := None |}] ∧
    length (positions (script w')) = S (length (positions (script w))).
Proof.
  destruct (wrappedSuccess_runs position w) as (w' & E & Hps & _).
  exists w'. split; [exact E|]. split; [exact Hps|].
  rewrite Hps, length_app. cbn. lia.
Qed.

(** C3 (as the script has it): [startTracking] returns normally in every
    state, recording or not.  Where geolocation is available the samples
    are emptied, a new watch is registered and held, the start button is
    disabled, and [updateStats] then reports 0 points; a click on the
    disabled start button does nothing. *)
Theorem start_resets_in_any_state (w : World num) :
  (startTracking w).1 = Normal () ∧
  (geolocation (browser w) = true →
   ∃ w' : World num,
     startTracking w = (Normal (), w') ∧
     positions (script w') = [] ∧
     watchId (script w') = Some (nextWatch (browser w)) ∧
     watches (browser w') = watches (browser w) ++ [nextWatch (browser w)] ∧
     startBtn_disabled (page w') = true ∧
     stopBtn_disabled (page w') = false ∧
     (∃ w'' : World num,
        updateStats w' = (Normal (), w'') ∧ pointCountEl (page w'') = "0") ∧
     dispatch ClickStart w' = (Normal (), w')).
Proof.
  rewrite startTracking_runs. split; [reflexivity|].
  intros Hgeo. rewrite Hgeo.
  eexists. split; [reflexivity|]. cbn.
  repeat (split; [reflexivity|]). split; [|reflexivity].
  match goal with
  | |- ∃ w'', updateStats ?w1 = _ ∧ _ =>
      destruct (updateStats_runs w1) as (w2 & E & _ & Hpc & _)
  end.
  exists w2. split; [exact E|]. rewrite Hpc. reflexivity.
Qed.



(** C8 (as the script has it): with two samples or more, a stored text that
    is not JSON makes [stopTracking] throw the SyntaxError of [JSON.parse];
    nothing catches it, the storage stays as it was and nothing is shown.  A
    JSON text that is not an array makes it throw a TypeError in the same
    way.  The empty text counts as the empty collection, and an array is
    taken whatever its entries are. *)
Theorem corrupt_payload_is_thrown (w : World num) :
  (2 ≤ length (positions (script w)))%nat →
  (∀ text : string,
     stored w = Some (Malformed text) → text ≠ "" →
     loadAll w = (Throw SyntaxError, w) ∧
     stopTracking w = (Throw SyntaxError, halted w) ∧
     localStorage (browser (halted w)) = localStorage (browser w) ∧
     notifications (page (halted w)) = notifications (page w) ∧
     alerts (browser (halted w)) = alerts (browser w)) ∧
  (∀ v : json num,
     stored w = Some (Document v) → (∀ items, v ≠ JArr items) →
     ∃ w' : World num,
       stopTracking w = (Throw TypeError, w') ∧
       localStorage (browser w') = localStorage (browser w) ∧
       notifications (page w') = notifications (page w) ∧
       alerts (browser w') = alerts (browser w)) ∧
  (stored w = Some (Malformed "") → loadAll w = (Normal (JArr []), w)) ∧
  (∀ items : list (json num),
     stored w = Some (Document (JArr items)) →
     loadAll w = (Normal (JArr items), w)).
Proof.
  intros Hlen.
  destruct (halted_keeps w) as (Hps & Hl & Hf & Hn & Ha & _).
  split; [|split; [|split]].
  - intros text Hst Htext.
    assert (Hload : or_empty_array (stored w) = Malformed text).
    { rewrite Hst. destruct text; [congruence|reflexivity]. }
    split; [now rewrite loadAll_eq, Hload|].
    split; [|auto].
    rewrite stopTracking_saveTrack.
    apply (saveTrack_malformed (halted w) text).
    + now rewrite Hps.
    + now rewrite halted_stored.
  - intros v Hst Hv.
    destruct (saveTrack_loaded (halted w) v) as (j & d & _ & _ & E).
    + now rewrite Hps.
    + now rewrite halted_stored, Hst.
    + cbn zeta in E. rewrite stopTracking_saveTrack, E.
      destruct (ticked_keeps (j + 3) (halted w)) as (_ & Hp' & Hl' & _).
      destruct v; try (eexists; split; [reflexivity|];
        rewrite Hl', Hp'; unfold ticked; cbn; rewrite iter_tick; cbn; auto).
      now destruct (Hv items).
  - intros Hst. now rewrite loadAll_eq, Hst.
  - intros items Hst. now rewrite loadAll_eq, Hst.
Qed.


End Claims.

(** ** The haversine distance on the reals *)

Section Haversine.
Local Open Scope R_scope.

(** The haversine term [a] of the formula, on the reals. *)
Lemma haversineDistance_R (lat1 lon1 lat2 lon2 : R) :
  haversineDistance lat1 lon1 lat2 lon2 =
  let a := sin ((lat2 - lat1) * PI / 180 / 2) * sin ((lat2 - lat1) * PI / 180 / 2)
           + cos (lat1 * PI / 180) * cos (lat2 * PI / 180)
             * sin ((lon2 - lon1) * PI / 180 / 2)
             * sin ((lon2 - lon1) * PI / 180 / 2) in
  6371 * (2 * R_atan2 (sqrt a) (sqrt (1 - a))).
Proof. reflexivity. Qed.








(** One degree of longitude on the equator is [6371 * PI / 180] km, about
    111.19 km. *)
Lemma equator_degree : haversineDistance 0 0 0 1 = 6371 * PI / 180.
Proof.
  rewrite haversineDistance_R. cbn zeta.
  pose proof PI_RGT_0 as Hpi.
  replace ((0 - 0) * PI / 180 / 2) with 0 by field.
  replace (0 * PI / 180) with 0 by field.
  replace ((1 - 0) * PI / 180 / 2) with (PI / 360) by field.
  rewrite sin_0, cos_0.
  set (x := PI / 360).
  assert (Hx : - (PI / 2) < x < PI / 2) by (subst x; lra).
  assert (Hcos : 0 < cos x) by (apply cos_gt_0; lra).
  replace (0 * 0 + 1 * 1 * sin x * sin x) with (Rsqr (sin x))
    by (unfold Rsqr; ring).
  replace (1 - Rsqr (sin x)) with (Rsqr (cos x))
    by (pose proof (sin2_cos2 x); lra).
  assert (Hsin : 0 <= sin x).
  { apply sin_ge_0; subst x; lra. }
  rewrite !sqrt_Rsqr by lra.
  unfold R_atan2. destruct (Rlt_dec 0 (cos x)) as [_|Hn]; [|lra].
  change (sin x / cos x) with (tan x).
  rewrite atan_tan by exact Hx. subst x. field.
Qed.


End Haversine.

(** ** The sample sessions *)

Section Sessions.



(** C2, counterexample: the second fix is captured and stamped one second
    before the first, and is stored all the same. *)
Lemma stale_sample_is_stored :
  let w0 := started backward_clock in
  let w1 := handle w0 (Fix (reading 0 0 2000)) in
  let w2 := handle w1 (Fix (reading 0 1 1000)) in
  present w0 = 2000%Z ∧ present w1 = 1000%Z ∧
  length (positions (script w1)) = 1%nat ∧
  length (positions (script w2)) = 2%nat.
Proof. repeat split. Qed.

(** C3, counterexample: [startTracking] in a recording session returns
    normally, with a second watch beside the first. *)
Lemma start_while_recording_returns :
  recording (started steady_clock) = true ∧
  watches (browser (started steady_clock)) = [1%Z] ∧
  (startTracking (started steady_clock)).1 = Normal () ∧
  watches (browser (startTracking (started steady_clock)).2) = [1%Z; 2%Z] ∧
  recording (startTracking (started steady_clock)).2 = true.
Proof. repeat split. Qed.

(** C3, witness: a start in the recording session with two fixes. *)
Lemma start_resets_in_any_state_witness :
  (startTracking (tracked steady_clock)).1 = Normal () ∧
  ∃ w' : World R,
    startTracking (tracked steady_clock) = (Normal (), w') ∧
    positions (script w') = [] ∧
    watchId (script w') = Some (nextWatch (browser (tracked steady_clock))) ∧
    watches (browser w')
      = watches (browser (tracked steady_clock))
        ++ [nextWatch (browser (tracked steady_clock))] ∧
    startBtn_disabled (page w') = true ∧
    stopBtn_disabled (page w') = false ∧
    (∃ w'' : World R,
       updateStats w' = (Normal (), w'') ∧ pointCountEl (page w'') = "0") ∧
    dispatch ClickStart w' = (Normal (), w').
Proof.
  split.
  - apply (proj1 (start_resets_in_any_state (tracked steady_clock))).
  - apply (proj2 (start_resets_in_any_state (tracked steady_clock))).
    reflexivity.
Defined.




(** C8, counterexample: over a stored text that is not JSON, the click on
    the stop button ends in an uncaught SyntaxError; the text stays in the
    storage, the track is not saved and nothing is shown. *)
Lemma corrupt_storage_crashes_stop :
  let w := corrupted steady_clock in
  stored w = Some (Malformed "not json") ∧
  length (positions (script w)) = 2%nat ∧
  (dispatch ClickStop w).1 = Throw SyntaxError ∧
  stored (handle w ClickStop) = Some (Malformed "not json") ∧
  notifications (page (handle w ClickStop)) = [] ∧
  alerts (browser (handle w ClickStop)) = [] ∧
  console (browser (handle w ClickStop)) = [].
Proof. repeat split; vm_compute; reflexivity. Qed.

(** C8, witness: the session with two fixes over the text [not json]. *)
Lemma corrupt_payload_is_thrown_witness :
  let w := corrupted steady_clock in
  loadAll w = (Throw SyntaxError, w) ∧
  stopTracking w = (Throw SyntaxError, halted w) ∧
  localStorage (browser (halted w)) = localStorage (browser w) ∧
  notifications (page (halted w)) = notifications (page w) ∧
  alerts (browser (halted w)) = alerts (browser w).
Proof.
  refine (proj1 (corrupt_payload_is_thrown (corrupted steady_clock) _)
            "not json" _ _).
  - vm_compute. lia.
  - vm_compute. reflexivity.
  - discriminate.
Defined.




End Sessions.

Section Poles.
Local Open Scope R_scope.



End Poles.

(** * Further properties *)

(** ** What saving leaves alone *)

Section Frames.
Context {num : Type} `{Runtime num}.

(** [saveTrack] touches the clock, the storage and the notifications only. *)
Lemma saveTrack_frame (w : World num) :
  let w' := (saveTrack w).2 in
  script w' = script w ∧
  same_display (page w) (page w') ∧
  geolocation (browser w') = geolocation (browser w) ∧
  watches (browser w') = watches (browser w) ∧
  nextWatch (browser w') = nextWatch (browser w) ∧
  storageFull (browser w') = storageFull (browser w) ∧
  alerts (browser w') = alerts (browser w) ∧
  console (browser w') = console (browser w).
Proof.
  cbn zeta. unfold same_display.
  destruct (Nat.lt_ge_cases (length (positions (script w))) 2) as [Hlen|Hlen].
  { rewrite saveTrack_short by exact Hlen. repeat split. }
  destruct (or_empty_array (stored w)) as [text|v] eqn:Hload.
  { rewrite (saveTrack_malformed w text Hlen Hload). repeat split. }
  destruct (saveTrack_loaded w v Hlen Hload) as (j & d & _ & _ & E).
  cbn zeta in E. rewrite E.
  assert (Hq : ∀ items t m, let w' := saved items t m (ticked (j + 3) w) in
    script w' = script w ∧
    same_display (page w) (page w') ∧
    geolocation (browser w') = geolocation (browser w) ∧
    watches (browser w') = watches (browser w) ∧
    nextWatch (browser w') = nextWatch (browser w) ∧
    storageFull (browser w') = storageFull (browser w) ∧
    alerts (browser w') = alerts (browser w) ∧
    console (browser w') = console (browser w)).
  { intros. unfold saved, ticked; cbn. rewrite iter_tick. repeat split. }
  assert (Hp : let w' := ticked (j + 3) w in
    script w' = script w ∧
    same_display (page w) (page w') ∧
    geolocation (browser w') = geolocation (browser w) ∧
    watches (browser w') = watches (browser w) ∧
    nextWatch (browser w') = nextWatch (browser w) ∧
    storageFull (browser w') = storageFull (browser w) ∧
    alerts (browser w') = alerts (browser w) ∧
    console (browser w') = console (browser w)).
  { unfold ticked; cbn. rewrite iter_tick. repeat split. }
  destruct v; try exact Hp.
  destruct (storageFull (browser w)); [exact Hp|]. apply Hq.
Qed.

End Frames.

(** ** What a fix shows *)

Section Fix.
Context {num : Type} `{Runtime num}.
Local Open Scope num_scope.

(** Everything that the success callback leaves on the page and in the
    variables of the script. *)
Lemma wrappedSuccess_shows (position : Position num) (w : World num) :
  let c := coords position in
  let ps := positions (script w) in
  ∃ w' : World num,
    wrappedSuccess position w = (Normal (), w') ∧
    latitudeEl (page w') = toFixed (latitude c) 6 ∧
    longitudeEl (page w') = toFixed (longitude c) 6 ∧
    speedEl (page w')
      = match speed c with
        | Some s => if truthy s
                    then toFixed (s * (#36 / #10)) 2 +:+ " km/h" else "-"
        | None => "-"
        end ∧
    accuracyEl (page w') = toFixed (accuracy c) 2 +:+ " meters" ∧
    pointCountEl (page w') = pretty (length ps) ∧
    distanceEl (page w')
      = (if (1 <? length ps)%nat
         then toFixed (pathDistanceKm ps) 2 +:+ " km"
         else distanceEl (page w)) ∧
    durationEl (page w')
      = (if truthyZ (startTime (script w))
         then minutes_seconds
                ((reading_at w 1 - default 0%Z (startTime (script w))) / 1000)
         else durationEl (page w)) ∧
    marker (script w') = Some (latitude c, longitude c) ∧
    polyline (script w')
      = (if (1 <? length ps)%nat then Some ps else polyline (script w)) ∧
    positions (script w') = ps ++ [stored_sample position].
Proof.
  cbn zeta.
  unfold wrappedSuccess, onPosition, updateMap, updateStats, Date_now.
  unfold_monad.
  destruct w as [s p b]. cbn -[calculateDistance Nat.ltb].
  destruct (1 <? length (positions s))%nat eqn:Hlt;
    destruct (truthyZ (startTime s)) eqn:Hst;
    repeat (cbn -[calculateDistance Nat.ltb];
            rewrite ?Hlt, ?Hst, ?calculateDistance_sum);
    (eexists; split; [reflexivity|]); cbn; repeat split.
Qed.

End Fix.

(** ** Whole sessions *)

Section Sessions2.
Context {num : Type} `{Runtime num}.
Local Open Scope num_scope.

Lemma run_app (l1 l2 : list (event num)) (w : World num) :
  run (l1 ++ l2) w = run l2 (run l1 w).
Proof. unfold run. apply foldl_app. Qed.

Lemma handle_Fix (position : Position num) (w : World num) :
  watches (browser w) ≠ [] →
  handle w (Fix position) = (wrappedSuccess position w).2.
Proof.
  intros Hw. unfold handle; cbn [dispatch].
  unfold mbind, M_bind, bind, gets.
  now destruct (watches (browser w)).
Qed.

(** A run of fixes under a registered watch: every fix adds its sample at
    the end, and nothing but the samples, the page's figures and the clock
    changes. *)
Lemma run_fixes (fixes : list (Position num)) (w : World num) :
  watches (browser w) ≠ [] →
  let w' := run (Fix <$> fixes) w in
  positions (script w') = positions (script w) ++ (stored_sample <$> fixes) ∧
  watchId (script w') = watchId (script w) ∧
  startBtn_disabled (page w') = startBtn_disabled (page w) ∧
  stopBtn_disabled (page w') = stopBtn_disabled (page w) ∧
  notifications (page w') = notifications (page w) ∧
  watches (browser w') = watches (browser w) ∧
  localStorage (browser w') = localStorage (browser w) ∧
  storageFull (browser w') = storageFull (browser w).
Proof.
  revert w. induction fixes as [|position fixes IH]; intros w Hw; cbn zeta.
  { cbn. rewrite app_nil_r. repeat split. }
  cbn [fmap list_fmap run foldl]. rewrite handle_Fix by exact Hw.
  destruct (wrappedSuccess_runs position w)
    as (w1 & E & Hps & Hid & _ & _ & Hb1 & Hb2 & Hn & Hb).
  rewrite E; cbn [snd].
  assert (Hbr : watches (browser w1) = watches (browser w) ∧
                localStorage (browser w1) = localStorage (browser w) ∧
                storageFull (browser w1) = storageFull (browser w)).
  { rewrite Hb. unfold ticked; cbn. rewrite iter_tick. repeat split. }
  destruct Hbr as (Hw1 & Hl1 & Hf1).
  destruct (IH w1) as (Hps' & Hid' & Hb1' & Hb2' & Hn' & Hw' & Hl' & Hf').
  { now rewrite Hw1. }
  unfold run in *.
  rewrite Hps', Hid', Hb1', Hb2', Hn', Hw', Hl', Hf'.
  rewrite Hps, Hid, Hb1, Hb2, Hn, Hw1, Hl1, Hf1.
  rewrite <- app_assoc. repeat split.
Qed.

Lemma halted_watches (w : World num) (id : Z) :
  watchId (script w) = Some id → id ≠ 0%Z →
  watches (browser (halted w)) = filter (λ i, i ≠ id) (watches (browser w)) ∧
  watchId (script (halted w)) = None.
Proof.
  intros Hid Hne. unfold halted. rewrite Hid.
  assert (Ht : truthyZ (Some id) = true)
    by (cbn; now apply negb_true_iff, Z.eqb_neq).
  rewrite Ht. split; reflexivity.
Qed.



(** X1: in a session started from the page, the samples held after any
    number of fixes are the delivered positions, in the order of delivery,
    none dropped and none twice. *)
Theorem fixes_are_stored_in_order
    (fixes : list (Position num)) (w : World num) :
  startBtn_disabled (page w) = false →
  geolocation (browser w) = true →
  positions (script (run (ClickStart :: (Fix <$> fixes)) w))
  = stored_sample <$> fixes.
Proof.
  intros Hbtn Hgeo.
  change (ClickStart :: (Fix <$> fixes))
    with ([ClickStart] ++ (Fix <$> fixes)).
  rewrite run_app.
  assert (Hstart : run [ClickStart] w = (startTracking w).2).
  { cbn. unfold handle; cbn [dispatch].
    unfold mbind, M_bind, bind, gets. now rewrite Hbtn. }
  rewrite Hstart, startTracking_runs, Hgeo. cbn [snd].
  match goal with
  | |- positions (script (run _ ?w1)) = _ =>
      destruct (run_fixes fixes w1) as (Hps & _)
  end.
  { cbn. intros E. now apply app_nil in E as [_ E]. }
  cbn zeta in Hps. rewrite Hps. reflexivity.
Qed.


End Sessions2.

(** ** The life cycle and the storage *)

Section Lifecycle.
Context {num : Type} `{Runtime num}.
Local Open Scope num_scope.

Lemma halted_display (w : World num) :
  startBtn_disabled (page (halted w)) = false ∧
  stopBtn_disabled (page (halted w)) = true ∧
  latitudeEl (page (halted w)) = latitudeEl (page w) ∧
  longitudeEl (page (halted w)) = longitudeEl (page w) ∧
  speedEl (page (halted w)) = speedEl (page w) ∧
  accuracyEl (page (halted w)) = accuracyEl (page w) ∧
  distanceEl (page (halted w)) = distanceEl (page w) ∧
  durationEl (page (halted w)) = durationEl (page w) ∧
  pointCountEl (page (halted w)) = pointCountEl (page w) ∧
  nextWatch (browser (halted w)) = nextWatch (browser w).
Proof. unfold halted. now destruct (truthyZ (watchId (script w))). Qed.

(** [stopTracking] ends in the idle state. *)
Lemma stopTracking_idle (w : World num) :
  lifecycle w → lifecycle (stopTracking w).2.
Proof.
  intros (Hnext & Hstate).
  rewrite stopTracking_saveTrack.
  destruct (saveTrack_frame (halted w))
    as (Hs & (Hb1 & Hb2 & _) & _ & Hws & Hnw & _).
  cbn zeta in *.
  destruct (halted_display w) as (Hh1 & Hh2 & _ & _ & _ & _ & _ & _ & _ & Hhn).
  split; [now rewrite Hnw, Hhn|]. left.
  unfold idle. rewrite Hb1, Hh1, Hws, Hs.
  split; [reflexivity|].
  destruct Hstate as [(_ & Hw & Hid)|(_ & _ & id & Hne & Hw & Hid)].
  - unfold halted. rewrite Hid. cbn. auto.
  - destruct (halted_watches w id Hid Hne) as (-> & ->).
    rewrite Hw. cbn. rewrite decide_False by (intros E; now apply E).
    auto.
Qed.

Lemma handle_lifecycle (e : event num) (w : World num) :
  lifecycle w → lifecycle (handle w e).
Proof.
  intros Hlife. pose proof Hlife as (Hnext & Hstate).
  unfold handle.
  destruct e as [| | |position|message]; cbn [dispatch].
  - unfold mbind, M_bind, bind, gets.
    destruct (startBtn_disabled (page w)) eqn:Hbtn; [exact Hlife|].
    destruct Hstate as [(_ & Hw & Hid)|(Hb & _)]; [|congruence].
    rewrite startTracking_runs. cbn [snd].
    destruct (geolocation (browser w)).
    + split; [cbn; lia|]. right. unfold tracking; cbn.
      split; [reflexivity|]. split; [reflexivity|].
      exists (nextWatch (browser w)). rewrite Hw.
      split; [lia|]. split; reflexivity.
    + split; [exact Hnext|]. left. unfold idle; cbn. auto.
  - unfold mbind, M_bind, bind, gets.
    destruct (stopBtn_disabled (page w)); [exact Hlife|].
    now apply stopTracking_idle.
  - cbn. split; [exact Hnext|].
    destruct Hstate as [Hi|Ht]; [left|right]; assumption.
  - unfold mbind, M_bind, bind, gets.
    destruct (watches (browser w)) eqn:Hw; [exact Hlife|].
    destruct (wrappedSuccess_runs position w)
      as (w' & E & _ & Hid & _ & _ & Hb1 & Hb2 & _ & Hb).
    rewrite E. cbn [snd].
    assert (Hbr : watches (browser w') = watches (browser w) ∧
                  nextWatch (browser w') = nextWatch (browser w)).
    { rewrite Hb. unfold ticked; cbn. rewrite iter_tick. split; reflexivity. }
    destruct Hbr as (Hw' & Hn').
    split; [now rewrite Hn'|].
    unfold idle, tracking. rewrite Hb1, Hb2, Hid, Hw', Hw.
    unfold idle, tracking in Hstate. rewrite Hw in Hstate. exact Hstate.
  - unfold mbind, M_bind, bind, gets.
    destruct (watches (browser w)) eqn:Hw; [exact Hlife|].
    unfold onError, console_error, alert.
    unfold mbind, M_bind, bind, modify.
    match goal with
    | |- lifecycle (stopTracking ?w0).2 =>
        apply (stopTracking_idle w0)
    end.
    split; [exact Hnext|].
    unfold idle, tracking in *; cbn. rewrite Hw in Hstate. rewrite Hw.
    exact Hstate.
Qed.

(** X4: the buttons keep the session in one of two states.  From an idle or
    tracking page, after any sequence of events the page is idle or
    tracking again: at most one watch is registered, it is the one that the
    script holds, and the start button is disabled exactly while it is
    held. *)
Theorem buttons_keep_one_watch (events : list (event num)) (w : World num) :
  lifecycle w →
  let w' := run events w in
  lifecycle w' ∧
  (length (watches (browser w')) ≤ 1)%nat ∧
  recording w' = startBtn_disabled (page w') ∧
  (recording w' = true → stopBtn_disabled (page w') = false).
Proof.
  intros Hlife. cbn zeta.
  assert (Hrun : lifecycle (run events w)).
  { revert w Hlife. induction events as [|e events IH]; intros w Hlife;
      [exact Hlife|].
    cbn [run foldl]. apply IH, handle_lifecycle, Hlife. }
  split; [exact Hrun|].
  destruct Hrun as (_ & [(Hb & Hw & Hid)|(Hb1 & Hb2 & id & Hne & Hw & Hid)]);
    unfold recording; rewrite Hw, Hid; cbn.
  - rewrite Hb. split; [lia|]. split; [reflexivity|discriminate].
  - rewrite Hb1. split; [lia|]. split; [|auto].
    now apply negb_true_iff, Z.eqb_neq.
Qed.


(** X6: the script writes no item of the storage but its own. *)
Theorem other_items_are_untouched
    (events : list (event num)) (w : World num) (key : string) :
  key ≠ "gpsTracks" →
  localStorage (browser (run events w)) !! key
  = localStorage (browser w) !! key.
Proof.
  intros Hkey. revert w. induction events as [|e events IH]; intros w;
    [reflexivity|].
  cbn [run foldl]. change (foldl handle (handle w e) events)
    with (run events (handle w e)). rewrite IH.
  destruct (dispatch_advances e w)
    as (_ & _ & [->|(items' & track & k & _ & -> & _)]); [reflexivity|].
  apply lookup_insert_ne. congruence.
Qed.

(** X7: [stopTracking] shows its notification exactly when it has written a
    track: either the storage and the notifications are as before, or it
    returned, the storage has one more track and the page one more
    notification. *)
Theorem stop_notifies_exactly_when_it_saves (w : World num) :
  let w' := (stopTracking w).2 in
  (localStorage (browser w') = localStorage (browser w) ∧
   notifications (page w') = notifications (page w)) ∨
  (∃ (items : list (json num)) (track : json num) (message : string),
     (stopTracking w).1 = Normal () ∧
     or_empty_array (stored w) = Document (JArr items) ∧
     localStorage (browser w')
       = <["gpsTracks" := Document (JArr (items ++ [track]))]>
           (localStorage (browser w)) ∧
     notifications (page w') = notifications (page w) ++ [message]).
Proof.
  cbn zeta. rewrite stopTracking_saveTrack.
  destruct (halted_keeps w) as (Hps & Hl & _ & Hn & _).
  destruct (Nat.lt_ge_cases (length (positions (script (halted w)))) 2)
    as [Hlen|Hlen].
  { rewrite saveTrack_short by exact Hlen. left. auto. }
  destruct (or_empty_array (stored (halted w))) as [text|v] eqn:Hload.
  { rewrite (saveTrack_malformed _ text Hlen Hload). left. auto. }
  destruct (saveTrack_loaded (halted w) v Hlen Hload) as (j & d & _ & _ & E).
  cbn zeta in E. rewrite E.
  destruct (ticked_keeps (j + 3) (halted w)) as (_ & Hp' & Hl' & _).
  assert (Hq : localStorage (browser (ticked (j + 3) (halted w)))
               = localStorage (browser w) ∧
               notifications (page (ticked (j + 3) (halted w)))
               = notifications (page w)).
  { rewrite Hl', Hp'. auto. }
  destruct v; try (left; exact Hq).
  destruct (storageFull (browser (halted w))); [left; exact Hq|].
  right. cbn [fst snd].
  match goal with
  | |- context [saved items ?t ?m _] =>
      destruct (saved_keeps items t m (j + 3) (halted w))
        as (_ & _ & Hl'' & _ & Hn'' & _);
      exists items, t, m
  end.
  split; [reflexivity|]. split; [now rewrite <- halted_stored|].
  split; [now rewrite Hl'', Hl|]. now rewrite Hn'', Hn.
Qed.

(** X8: a storage that refuses the write.  With two samples or more over a
    stored collection, [stopTracking] ends with the QuotaExceededError of
    [setItem]: the session is stopped, the samples are still held, the
    storage is as before and nothing is shown. *)
Theorem full_storage_is_thrown (w : World num) (items : list (json num)) :
  (2 ≤ length (positions (script w)))%nat →
  or_empty_array (stored w) = Document (JArr items) →
  storageFull (browser w) = true →
  ∃ w' : World num,
    stopTracking w = (Throw QuotaExceededError, w') ∧
    recording w' = false ∧
    startBtn_disabled (page w') = false ∧
    positions (script w') = positions (script w) ∧
    localStorage (browser w') = localStorage (browser w) ∧
    notifications (page w') = notifications (page w) ∧
    alerts (browser w') = alerts (browser w).
Proof.
  intros Hlen Hload Hfull.
  destruct (halted_keeps w) as (Hps & Hl & Hf & Hn & Ha & _).
  destruct (saveTrack_loaded (halted w) (JArr items)) as (j & d & _ & _ & E).
  - now rewrite Hps.
  - now rewrite halted_stored.
  - cbn zeta in E. rewrite Hf, Hfull in E.
    rewrite stopTracking_saveTrack, E.
    eexists. split; [reflexivity|].
    destruct (ticked_keeps (j + 3) (halted w)) as (Hs' & Hp' & Hl' & _).
    unfold recording. rewrite Hs', Hp', Hl'.
    split; [apply halted_recording|].
    split; [apply halted_display|].
    split; [exact Hps|]. split; [exact Hl|]. split; [exact Hn|].
    unfold ticked; cbn. rewrite iter_tick. exact Ha.
Qed.

(** X9: [clearTracking] empties the samples and leaves the watch and the
    buttons alone.  A stop right after it writes nothing and shows nothing,
    and under a registered watch the next fix begins a new sequence. *)
Theorem clear_discards_the_samples (w : World num) :
  let w1 := (clearTracking w).2 in
  clearTracking w = (Normal (), w1) ∧
  positions (script w1) = [] ∧
  watchId (script w1) = watchId (script w) ∧
  browser w1 = browser w ∧
  startBtn_disabled (page w1) = startBtn_disabled (page w) ∧
  stopBtn_disabled (page w1) = stopBtn_disabled (page w) ∧
  stopTracking w1 = (Normal (), halted w1) ∧
  localStorage (browser (halted w1)) = localStorage (browser w) ∧
  notifications (page (halted w1)) = notifications (page w) ∧
  (∀ position : Position num,
     watches (browser w) ≠ [] →
     positions (script (handle w1 (Fix position)))
     = [stored_sample position]).
Proof.
  cbn zeta.
  split; [reflexivity|]. split; [reflexivity|]. split; [reflexivity|].
  split; [reflexivity|]. split; [reflexivity|]. split; [reflexivity|].
  set (w1 := (clearTracking w).2).
  assert (Hps : positions (script w1) = []) by reflexivity.
  destruct (halted_keeps w1) as (Hps' & Hl & _ & Hn & _).
  split.
  { rewrite stopTracking_saveTrack. apply saveTrack_short.
    rewrite Hps', Hps. cbn. lia. }
  split; [rewrite Hl; reflexivity|]. split; [rewrite Hn; reflexivity|].
  intros position Hw.
  rewrite handle_Fix by exact Hw.
  destruct (wrappedSuccess_runs position w1) as (w2 & E & Hps2 & _).
  rewrite E. cbn [snd]. rewrite Hps2, Hps. reflexivity.
Qed.

(** X10: the duration that is saved counts the samples.  When no sample
    carries a timestamp and the two readings of the clock are less than half
    a second apart, the duration of two samples or more is one second per
    sample. *)
Theorem fallback_duration_counts_samples (w : World num) :
  (2 ≤ length (positions (script w)))%nat →
  Forall (λ p, timestamp p = None) (positions (script w)) →
  (0 ≤ reading_at w 1 - reading_at w 0 < 500)%Z →
  getTrackingDuration w
  = (Normal (minutes_seconds (Z.of_nat (length (positions (script w))))),
     ticked 2 w).
Proof.
  intros Hlen Hnone Hclock.
  unfold getTrackingDuration.
  unfold mbind at 1, M_bind at 1, bind at 1, gets at 1.
  rewrite (long_ltb _ Hlen).
  set (ps := positions (script w)) in *.
  assert (Hts : ∀ i : nat, ps !! i ≫= timestamp = None).
  { intros i. destruct (ps !! i) as [p|] eqn:Hp; [|reflexivity].
    cbn. rewrite Forall_forall in Hnone.
    apply Hnone. eapply list_elem_of_lookup_2, Hp. }
  rewrite !Hts. unfold or_else; cbn [truthyZ].
  unfold mbind, M_bind, bind, mret, M_ret, ret, Date_now. cbn.
  do 2 f_equal. f_equal.
  unfold reading_at in Hclock. cbn in Hclock.
  set (r0 := now (browser w) (ticks (browser w))) in *.
  set (r1 := now (browser w) (S (ticks (browser w)))) in *.
  replace (r1 - (r0 - Z.of_nat (length ps) * 1000) + 500)%Z
    with ((r1 - r0 + 500) + Z.of_nat (length ps) * 1000)%Z by lia.
  rewrite Z.div_add by lia.
  rewrite Z.div_small by lia. lia.
Qed.

End Lifecycle.

(** ** The page, the times and the error callback *)

Section Display.
Context {num : Type} `{Runtime num}.
Local Open Scope num_scope.

(** X3: the figures shown after a fix are those of the samples before it.
    The success callback updates the map and the statistics before it
    stores the sample: the marker and the coordinates shown are those of the
    new fix, but the point count is one less than the number of samples
    held, and the polyline and the distance are those of the samples without
    the new one (they are left as they were below two such samples). *)
Theorem statistics_lag_one_sample (position : Position num) (w : World num) :
  let c := coords position in
  let ps := positions (script w) in
  ∃ w' : World num,
    wrappedSuccess position w = (Normal (), w') ∧
    positions (script w') = ps ++ [stored_sample position] ∧
    marker (script w') = Some (latitude c, longitude c) ∧
    latitudeEl (page w') = toFixed (latitude c) 6 ∧
    longitudeEl (page w') = toFixed (longitude c) 6 ∧
    pointCountEl (page w') = pretty (length (positions (script w')) - 1)%nat ∧
    polyline (script w')
      = (if (1 <? length ps)%nat then Some ps else polyline (script w)) ∧
    distanceEl (page w')
      = (if (1 <? length ps)%nat
         then toFixed (pathDistanceKm ps) 2 +:+ " km"
         else distanceEl (page w)).
Proof.
  cbn zeta.
  destruct (wrappedSuccess_shows position w)
    as (w' & E & Hla & Hlo & _ & _ & Hpc & Hd & _ & Hm & Hpl & Hps).
  cbn zeta in *. exists w'. split; [exact E|].
  split; [exact Hps|]. split; [exact Hm|]. split; [exact Hla|].
  split; [exact Hlo|]. split; [|auto].
  rewrite Hpc, Hps, length_app. cbn. f_equal. lia.
Qed.

Lemma handle_durationEl (e : event num) (w : World num) :
  startTime (script w) = None →
  durationEl (page (handle w e)) = durationEl (page w) ∨
  durationEl (page (handle w e)) = "0s".
Proof.
  intros Hst. unfold handle.
  assert (Hstop : ∀ w0 : World num,
            durationEl (page (stopTracking w0).2) = durationEl (page w0)).
  { intros w0. rewrite stopTracking_saveTrack.
    destruct (saveTrack_frame (halted w0)) as (_ & Hd & _).
    destruct Hd as (_ & _ & _ & _ & _ & _ & _ & -> & _).
    apply halted_display. }
  destruct e as [| | |position|message]; cbn [dispatch].
  - unfold mbind, M_bind, bind, gets.
    destruct (startBtn_disabled (page w)); [auto|].
    rewrite startTracking_runs. cbn [snd].
    destruct (geolocation (browser w)); auto.
  - unfold mbind, M_bind, bind, gets.
    destruct (stopBtn_disabled (page w)); [auto|].
    left. apply Hstop.
  - right. reflexivity.
  - unfold mbind, M_bind, bind, gets.
    destruct (watches (browser w)); [auto|].
    destruct (wrappedSuccess_shows position w)
      as (w' & E & _ & _ & _ & _ & _ & _ & Hd & _).
    cbn zeta in Hd. rewrite E. cbn [snd]. rewrite Hd, Hst. auto.
  - unfold mbind, M_bind, bind, gets.
    destruct (watches (browser w)); [auto|].
    unfold onError, console_error, alert.
    unfold mbind, M_bind, bind, modify.
    left. rewrite Hstop. reflexivity.
Qed.

(** X11: the elapsed time is never shown.  No handler assigns a time to
    [startTime], so [updateStats] never writes the duration: from a state
    with [startTime] null, after any sequence of events [startTime] is null
    and the duration on the page is the one that was there or the "0s" that
    [clearTracking] writes. *)
Theorem elapsed_time_is_never_shown
    (events : list (event num)) (w : World num) :
  startTime (script w) = None →
  startTime (script (run events w)) = None ∧
  (durationEl (page (run events w)) = durationEl (page w) ∨
   durationEl (page (run events w)) = "0s").
Proof.
  revert w. induction events as [|e events IH]; intros w Hst; [auto|].
  cbn [run foldl].
  assert (Hst' : startTime (script (handle w e)) = None).
  { destruct (handle_script e w) as (_ & [-> | ->]); auto. }
  destruct (IH (handle w e) Hst') as (Hs & Hd).
  split; [exact Hs|].
  unfold run in Hd.
  destruct Hd as [-> | ->]; [|auto].
  now apply handle_durationEl.
Qed.

(** X12: the times of a saved track are those of the save.  Its id, its
    [date] and its [startTime] are the first three readings of the clock
    made by [stopTracking]: the [startTime] of a track is the time at which
    the session was stopped. *)
Theorem track_times_are_save_times (w : World num) (items : list (json num)) :
  (2 ≤ length (positions (script w)))%nat →
  or_empty_array (stored w) = Document (JArr items) →
  storageFull (browser w) = false →
  ∃ (w' : World num) (track : json num),
    stopTracking w = (Normal (), w') ∧
    stored w' = Some (Document (JArr (items ++ [track]))) ∧
    field "id" track = Some (JInt (reading_at w 0)) ∧
    field "date" track = Some (JStr (toLocaleString (reading_at w 1))) ∧
    field "startTime" track
      = Some (JStr (toLocaleTimeString (reading_at w 2))).
Proof.
  intros Hlen Hload Hfull.
  destruct (stopTracking_saves w items Hlen Hload Hfull) as (j & d & E).
  cbn zeta in E. rewrite E. eexists _, _. split; [reflexivity|].
  split; [apply saved_keeps|]. repeat split.
Qed.


End Display.

(** ** Bounds of the distance *)

Section Path.
Context {num : Type} `{Runtime num}.
Local Open Scope num_scope.


End Path.

Section Distance_R.
Local Open Scope R_scope.





End Distance_R.

(** ** Paths on the reals *)

Section Path_R.
Local Open Scope R_scope.






End Path_R.

(** ** The arcsine form *)

Section Arcsine.
Local Open Scope R_scope.




End Arcsine.

(** ** Samples without timestamps, and sample sessions *)

Section Untimestamped.
Context {num : Type} `{Runtime num}.

(** X18: the samples of a session never carry a timestamp.  The success
    callback stores the two coordinates only, so from samples without
    timestamps every sequence of events leads to samples without
    timestamps, and [getTrackingDuration], on two samples or more, always
    takes its fallback: it reads the clock twice and subtracts one second
    per sample. *)
Theorem recorded_samples_have_no_timestamp
    (events : list (event num)) (w : World num) :
  Forall (λ p, timestamp p = None) (positions (script w)) →
  startTime (script w) = None →
  let w' := run events w in
  Forall (λ p, timestamp p = None) (positions (script w')) ∧
  ((2 ≤ length (positions (script w')))%nat →
   getTrackingDuration w'
   = (Normal (minutes_seconds
        ((reading_at w' 1
          - (reading_at w' 0
             - Z.of_nat (length (positions (script w'))) * 1000)
          + 500) / 1000)),
      ticked 2 w')).
Proof.
  intros Hnone Hst. cbn zeta.
  destruct (run_script events w Hnone Hst) as (Hnone' & _).
  split; [exact Hnone'|]. intros Hlen.
  set (w' := run events w) in *. clearbody w'.
  unfold getTrackingDuration.
  unfold mbind at 1, M_bind at 1, bind at 1, gets at 1.
  rewrite (long_ltb _ Hlen).
  assert (Hts : ∀ i : nat, positions (script w') !! i ≫= timestamp = None).
  { intros i. destruct (positions (script w') !! i) as [p|] eqn:Hp;
      [|reflexivity].
    cbn. rewrite Forall_forall in Hnone'.
    apply Hnone'. eapply list_elem_of_lookup_2, Hp. }
  rewrite !Hts. reflexivity.
Qed.

End Untimestamped.

Section Sessions_more.

(** X1, witness: two fixes after a start on the page as loaded. *)
Lemma fixes_are_stored_in_order_witness :
  positions (script (run (ClickStart
                          :: (Fix <$> [reading 0 0 1000; reading 0 1 2000]))
                         (fresh_world steady_clock)))
  = stored_sample <$> [reading 0 0 1000; reading 0 1 2000].
Proof.
  apply (fixes_are_stored_in_order [reading 0 0 1000; reading 0 1 2000]
           (fresh_world steady_clock)); reflexivity.
Defined.


(** X4, witness: a session on the page as loaded. *)
Lemma buttons_keep_one_watch_witness :
  let w' := run (two_fixes ++ [ClickStop]) (fresh_world steady_clock) in
  lifecycle w' ∧
  (length (watches (browser w')) ≤ 1)%nat ∧
  recording w' = startBtn_disabled (page w') ∧
  (recording w' = true → stopBtn_disabled (page w') = false).
Proof.
  apply (buttons_keep_one_watch (two_fixes ++ [ClickStop])
           (fresh_world steady_clock)).
  split; [vm_compute; reflexivity|]. left. repeat split.
Defined.


(** X6, witness: another item of the storage. *)
Lemma other_items_are_untouched_witness :
  localStorage (browser (run [ClickStop] (tracked steady_clock))) !! "theme"
  = localStorage (browser (tracked steady_clock)) !! "theme".
Proof.
  apply (other_items_are_untouched [ClickStop] (tracked steady_clock) "theme").
  discriminate.
Defined.

(** X8, witness: the session with two fixes over the refusing storage. *)
Lemma full_storage_is_thrown_witness :
  let w := refused steady_clock in
  ∃ w' : World R,
    stopTracking w = (Throw QuotaExceededError, w') ∧
    recording w' = false ∧
    startBtn_disabled (page w') = false ∧
    positions (script w') = positions (script w) ∧
    localStorage (browser w') = localStorage (browser w) ∧
    notifications (page w') = notifications (page w) ∧
    alerts (browser w') = alerts (browser w).
Proof.
  apply (full_storage_is_thrown (refused steady_clock) []).
  - vm_compute. lia.
  - vm_compute. reflexivity.
  - reflexivity.
Defined.

(** X9, witness: a fix after a clear in the session with two fixes. *)
Lemma clear_discards_the_samples_witness :
  positions (script (handle (clearTracking (tracked steady_clock)).2
                            (Fix (reading 1 1 3000))))
  = [stored_sample (reading 1 1 3000)].
Proof.
  refine (proj2 (proj2 (proj2 (proj2 (proj2 (proj2 (proj2 (proj2 (proj2
            (clear_discards_the_samples (tracked steady_clock))))))))))
            (reading 1 1 3000) _).
  vm_compute. discriminate.
Defined.

(** X10, witness: the session with two fixes, stopped when the clock shows
    100 s at every reading. *)
Lemma fallback_duration_counts_samples_witness :
  let w := tracked long_session_clock in
  getTrackingDuration w
  = (Normal (minutes_seconds (Z.of_nat (length (positions (script w))))),
     ticked 2 w).
Proof.
  apply (fallback_duration_counts_samples (tracked long_session_clock)).
  - vm_compute. lia.
  - repeat constructor.
  - vm_compute. split; [discriminate|reflexivity].
Defined.

(** X11, witness: a session on the page as loaded. *)
Lemma elapsed_time_is_never_shown_witness :
  let w := fresh_world steady_clock in
  startTime (script (run (two_fixes ++ [ClickStop]) w)) = None ∧
  (durationEl (page (run (two_fixes ++ [ClickStop]) w)) = durationEl (page w) ∨
   durationEl (page (run (two_fixes ++ [ClickStop]) w)) = "0s").
Proof.
  apply (elapsed_time_is_never_shown (two_fixes ++ [ClickStop])
           (fresh_world steady_clock)).
  reflexivity.
Defined.

(** X12, witness: the session with two fixes over an empty storage. *)
Lemma track_times_are_save_times_witness :
  let w := tracked steady_clock in
  ∃ (w' : World R) (track : json R),
    stopTracking w = (Normal (), w') ∧
    stored w' = Some (Document (JArr ([] ++ [track]))) ∧
    field "id" track = Some (JInt (reading_at w 0)) ∧
    field "date" track = Some (JStr (toLocaleString (reading_at w 1))) ∧
    field "startTime" track
      = Some (JStr (toLocaleTimeString (reading_at w 2))).
Proof.
  apply (track_times_are_save_times (tracked steady_clock) []).
  - vm_compute. lia.
  - vm_compute. reflexivity.
  - reflexivity.
Defined.


(** X18, witness: a session on the page as loaded. *)
Lemma recorded_samples_have_no_timestamp_witness :
  let w' := run two_fixes (fresh_world steady_clock) in
  Forall (λ p, timestamp p = None) (positions (script w')) ∧
  ((2 ≤ length (positions (script w')))%nat →
   getTrackingDuration w'
   = (Normal (minutes_seconds
        ((reading_at w' 1
          - (reading_at w' 0
             - Z.of_nat (length (positions (script w'))) * 1000)
          + 500) / 1000)),
      ticked 2 w')).
Proof.
  apply (recorded_samples_have_no_timestamp two_fixes
           (fresh_world steady_clock)).
  - constructor.
  - reflexivity.
Defined.

End Sessions_more.

Section Arcsine_witness.
Local Open Scope R_scope.


End Arcsine_witness.
